(** * Library catalog: loans, availability and the book search pipeline

    A shallow embedding of [Django/catalog/views.py] and
    [Django/catalog/admin.py].  Database tables are finite maps or row
    lists, a view is a function from a request and a database to the new
    database and the response, and the clock, the session backend and the
    optional workbook writer are read from an explicit environment. *)

From Stdlib Require Import ZArith Ascii String.
From stdpp Require Import gmap strings list sorting.

Local Open Scope string_scope.
Local Open Scope Z_scope.

(** ** Text primitives used by the query layer *)

Module Text.

(** Python truthiness of a [str]: the empty string is falsy. *)
Definition truthy (s : string) : bool := negb (String.eqb s "").

(** Truthiness of the result of [request.GET.get(k)] with no default:
    [None] and the empty string are falsy. *)
Definition truthy_opt (o : option string) : bool :=
  match o with
  | Some s => truthy s
  | None => false
  end.

(** Whitespace removed by [str.strip()], on the ASCII range. *)
Definition is_space (c : ascii) : bool :=
  let n := N_of_ascii c in
  (((9 <=? n) && (n <=? 13)) || ((28 <=? n) && (n <=? 32)))%N.

Fixpoint lstrip (s : string) : string :=
  match s with
  | String c s' => if is_space c then lstrip s' else s
  | EmptyString => EmptyString
  end.

Definition strip (s : string) : string :=
  String.rev (lstrip (String.rev (lstrip s))).

(** Case folding as the database does it for [icontains], [iexact] and
    [Lower(...)]: the letters A-Z are mapped to a-z. *)
Definition lower_ascii (c : ascii) : ascii :=
  let n := N_of_ascii c in
  if ((65 <=? n) && (n <=? 90))%N then ascii_of_N (n + 32) else c.

Fixpoint lower (s : string) : string :=
  match s with
  | String c s' => String (lower_ascii c) (lower s')
  | EmptyString => EmptyString
  end.

(** [contains needle hay]: [needle] occurs in [hay] as a substring. *)
Fixpoint contains (needle hay : string) : bool :=
  String.prefix needle hay ||
  match hay with
  | String _ hay' => contains needle hay'
  | EmptyString => false
  end.

(** The [field__icontains=term] lookup. *)
Definition icontains (field term : string) : bool :=
  contains (lower term) (lower field).

(** The [field__iexact=term] lookup. *)
Definition iexact (field term : string) : bool :=
  String.eqb (lower field) (lower term).

Definition digit_value (c : ascii) : option Z :=
  let n := N_of_ascii c in
  if ((48 <=? n) && (n <=? 57))%N then Some (Z.of_N n - 48) else None.

Fixpoint all_digits (s : string) : bool :=
  match s with
  | String c s' => bool_decide (is_Some (digit_value c)) && all_digits s'
  | EmptyString => true
  end.

(** [str.isdigit()], on the ASCII range: non-empty, decimal digits only. *)
Definition isdigit (s : string) : bool := truthy s && all_digits s.

Fixpoint digits_value (acc : Z) (s : string) : option Z :=
  match s with
  | String c s' =>
      match digit_value c with
      | Some d => digits_value (10 * acc + d) s'
      | None => None
      end
  | EmptyString => Some acc
  end.

(** [int(s)] for a [str]: surrounding whitespace, an optional sign and
    decimal digits.  [None] stands for [ValueError].  (Digit-group
    underscores and non-ASCII digits are outside the ASCII model.) *)
Definition int (s : string) : option Z :=
  match strip s with
  | String "-" ds => if truthy ds then Z.opp <$> digits_value 0 ds else None
  | String "+" ds => if truthy ds then digits_value 0 ds else None
  | ds => if truthy ds then digits_value 0 ds else None
  end.

End Text.

(** ** The data model *)

(** Modelled from the spec: [catalog/models.py] (the declarations of
    [Book], [Loan], [Category], [SearchQuery] and the method
    [Loan.mark_returned]) is not among the sources.  The records carry the
    fields that the views and the admin read or write, with the types the
    spec's data model gives them; a foreign key is the referenced row's
    identity. *)

Module Book.
Record t : Type := mk {
  id : Z;
  title : string;
  author : string;
  isbn : string;
  category : option Z;
  language : string;
  edition_year : option Z;
  copies_total : Z
}.
End Book.

Module Loan.
Record t : Type := mk {
  book : Z;
  user : Z;
  borrowed_at : Z;
  due_date : Z;
  returned_at : option Z
}.

(** Modelled from the spec: [Loan.mark_returned] is declared in the
    absent [catalog/models.py]; the spec says Return "sets
    [returned_at = now]", which is also what the admin action does
    inline ([loan.returned_at = now]). *)
Definition mark_returned (now : Z) (l : t) : t :=
  mk (book l) (user l) (borrowed_at l) (due_date l) (Some now).

Definition is_active (l : t) : Prop := returned_at l = None.

Global Instance eq_dec : EqDecision t.
Proof. solve_decision. Defined.
End Loan.

Module SearchQuery.
(** The [params] JSON object stored with a search. *)
Record params_t : Type := mk_params {
  disponivel : bool;
  categoria : option string;
  idioma : string;
  ano_min : option string;
  ano_max : option string;
  ordenar : string;
  title : string;
  author : string;
  isbn : string
}.

Record t : Type := mk {
  user : option Z;
  session_key : string;
  q : string;
  params : params_t;
  created_at : Z
}.
End SearchQuery.

(** The database: the [Book] rows in storage order, the category names and
    the loans by primary key, and the append-only search log. *)
Record DB : Type := mkDB {
  books : list Book.t;
  categories : gmap Z string;
  loans : gmap Z Loan.t;
  searches : list SearchQuery.t
}.

Definition set_loans (db : DB) (ls : gmap Z Loan.t) : DB :=
  mkDB (books db) (categories db) ls (searches db).

Definition add_search (db : DB) (s : SearchQuery.t) : DB :=
  mkDB (books db) (categories db) (loans db) (searches db ++ [s]).

(** ** Requests, the environment and responses *)

Record User : Type := mkUser {
  user_id : Z;
  is_authenticated : bool;
  is_staff : bool
}.

Record HttpRequest : Type := mkRequest {
  method : string;
  user : User;
  GET : gmap string string;
  session_key : option string
}.

(** What a view reads from outside the database: [timezone.now()],
    [timezone.localdate()] (as a day number), the key handed out by
    [request.session.create()], and whether [openpyxl] can be imported. *)
Record Env : Type := mkEnv {
  now : Z;
  localdate : Z;
  new_session_key : string;
  openpyxl_installed : bool
}.

Inductive Level : Type := info | success | error.

(** The user-facing messages of the loan views, by content. *)
Inductive MessageText : Type :=
  | NoCopiesAvailable                       (* "Não há cópias disponíveis ..." *)
  | Borrowed (title : string) (due : Z)     (* "Você emprestou ... Devolução até ..." *)
  | AlreadyReturned                         (* "Este empréstimo já foi devolvido." *)
  | Returned (title : string)               (* "... devolvido com sucesso." *)
  | MarkedReturned (title : string)         (* "Empréstimo de ... marcado como devolvido." *)
  | BulkReturned (updated : nat).           (* "... empréstimo(s) marcados como devolvidos." *)

Record Message : Type := Msg { level : Level; text : MessageText }.

Global Instance Level_eq_dec : EqDecision Level.
Proof. solve_decision. Defined.
Global Instance MessageText_eq_dec : EqDecision MessageText.
Proof. solve_decision. Defined.
Global Instance Message_eq_dec : EqDecision Message.
Proof. solve_decision. Defined.

(** A cell of an exported table: text or a number. *)
Inductive Cell : Type :=
  | CText (s : string)
  | CNum (n : Z).

(** A [Book] row of the annotated queryset: the row and its
    [active_loans] count. *)
Record Annotated : Type := mkAnnotated {
  row : Book.t;
  active_loans : Z
}.

(** The template context of the listing page. *)
Record Context : Type := mkContext {
  ctx_books : list Annotated;
  ctx_page_obj : option Z;
  ctx_q : string;
  ctx_show_only_available : bool;
  ctx_mostrar : string;
  ctx_total_count : Z;
  ctx_ordenar : string;
  ctx_categorias : gmap Z string;
  ctx_categoria_selecionada : option string;
  ctx_idioma : string;
  ctx_ano_min : string;
  ctx_ano_max : string;
  ctx_title_param : string;
  ctx_author_param : string;
  ctx_isbn_param : string
}.

(** What a view call ends in.  [Http404] is the raised [Http404];
    [RedirectToLogin] is what [login_required] and [user_passes_test]
    answer when their test fails. *)
Inductive HttpResponse : Type :=
  | Http404
  | RedirectToLogin
  | Redirect (to : string) (messages : list Message)
  | JsonResponse (titles authors isbns : list string)
  | CsvAttachment (filename : string) (table : list (list Cell))
  | XlsxAttachment (filename : string) (table : list (list Cell))
  | ServerError500
  | Render (template : string) (context : Context).

Definition View : Type := HttpRequest → DB → DB * HttpResponse.

(** ** Decorators *)

Definition _is_staff (u : User) : bool := is_authenticated u && is_staff u.

Definition login_required (view : View) : View :=
  λ request db,
    if is_authenticated (user request) then view request db
    else (db, RedirectToLogin).

Definition user_passes_test (test : User → bool) (view : View) : View :=
  λ request db,
    if test (user request) then view request db
    else (db, RedirectToLogin).

(** ** Queries against the tables *)

(** [Book.objects.get(id=book_id)], [None] when no row has this id. *)
Definition get_book (db : DB) (book_id : Z) : option Book.t :=
  List.find (λ b, bool_decide (Book.id b = book_id)) (books db).

(** [Loan.objects.filter(book=book, returned_at__isnull=True)]. *)
Definition active_loans_of (db : DB) (book_id : Z) : gmap Z Loan.t :=
  filter (λ kl, Loan.book kl.2 = book_id ∧ Loan.returned_at kl.2 = None)
         (loans db).

(** [loan.book.title]; the foreign key is enforced by the database, the
    empty title stands for a dangling reference. *)
Definition loan_book_title (db : DB) (l : Loan.t) : string :=
  from_option Book.title "" (get_book db (Loan.book l)).

(** [Loan.objects.create(book=..., user=..., due_date=...)]: the row is
    stored under a primary key that is not in use; [borrowed_at] defaults
    to the current time and [returned_at] to null. *)
Definition create_loan (env : Env) (book_id user_id due_date : Z)
    (db : DB) : DB :=
  set_loans db
    (<[fresh (dom (loans db)) :=
         Loan.mk book_id user_id (now env) due_date None]> (loans db)).

(** ** Loan views *)

Definition borrow_book_view (env : Env) (book_id : Z) : View :=
  λ request db,
    match get_book db book_id with
    | None => (db, Http404)
    | Some book =>
        if negb (String.eqb (method request) "POST") then (db, Http404)
        else
          let active_loans := Z.of_nat (size (active_loans_of db book_id)) in
          if Book.copies_total book <=? active_loans then
            (db, Redirect "catalog:book_list" [Msg error NoCopiesAvailable])
          else
            let due_date := localdate env + 14 in
            (create_loan env book_id (user_id (user request)) due_date db,
             Redirect "catalog:book_list"
               [Msg success (Borrowed (Book.title book) due_date)])
    end.

Definition borrow_book (env : Env) (book_id : Z) : View :=
  login_required (borrow_book_view env book_id).

(** [get_object_or_404(Loan, id=loan_id, user=request.user)]. *)
Definition get_own_loan (db : DB) (loan_id : Z) (u : User) : option Loan.t :=
  match loans db !! loan_id with
  | Some loan => if bool_decide (Loan.user loan = user_id u) then Some loan else None
  | None => None
  end.

(** [loan.mark_returned()] followed by its write to the row [loan_id]. *)
Definition save_returned (env : Env) (loan_id : Z) (loan : Loan.t)
    (db : DB) : DB :=
  set_loans db (<[loan_id := Loan.mark_returned (now env) loan]> (loans db)).

Definition return_book_view (env : Env) (loan_id : Z) : View :=
  λ request db,
    match get_own_loan db loan_id (user request) with
    | None => (db, Http404)
    | Some loan =>
        if negb (String.eqb (method request) "POST") then (db, Http404)
        else
          match Loan.returned_at loan with
          | Some _ => (db, Redirect "catalog:my_loans" [Msg info AlreadyReturned])
          | None =>
              (save_returned env loan_id loan db,
               Redirect "catalog:my_loans"
                 [Msg success (Returned (loan_book_title db loan))])
          end
    end.

Definition return_book (env : Env) (loan_id : Z) : View :=
  login_required (return_book_view env loan_id).

Definition admin_mark_returned_view (env : Env) (loan_id : Z) : View :=
  λ request db,
    match loans db !! loan_id with
    | None => (db, Http404)
    | Some loan =>
        if negb (String.eqb (method request) "POST") then (db, Http404)
        else
          match Loan.returned_at loan with
          | None =>
              (save_returned env loan_id loan db,
               Redirect "catalog:admin_overdue_loans"
                 [Msg success (MarkedReturned (loan_book_title db loan))])
          | Some _ => (db, Redirect "catalog:admin_overdue_loans" [])
          end
    end.

Definition admin_mark_returned (env : Env) (loan_id : Z) : View :=
  user_passes_test _is_staff (admin_mark_returned_view env loan_id).

(** ** The admin's bulk action *)

Module LoanAdmin.

(** One turn of the loop: [loan.returned_at = now], the save of that
    field, and [updated += 1]. *)
Definition mark_one (now : Z) (acc : gmap Z Loan.t * nat)
    (kl : Z * Loan.t) : gmap Z Loan.t * nat :=
  (<[kl.1 := Loan.mark_returned now kl.2]> acc.1, S acc.2).

(** [marcar_como_devolvido(self, request, queryset)]: [queryset] is the
    set of selected loan ids; the loop runs over those of them that are
    still active, all stamped with the one [now] read before the loop. *)
Definition marcar_como_devolvido (env : Env) (queryset : gset Z)
    (db : DB) : DB * Message :=
  let now := now env in
  let todo :=
    map_to_list
      (filter (λ kl, kl.1 ∈ queryset ∧ Loan.returned_at kl.2 = None)
              (loans db)) in
  let '(ls, updated) := foldl (mark_one now) (loans db, 0%nat) todo in
  (set_loans db ls, Msg success (BulkReturned updated)).

End LoanAdmin.

(** ** [django.core.paginator.Paginator], as the listing uses it *)

Module Paginator.
Section paginator.
Context {A : Type}.
Variable object_list : list A.
Variable per_page : Z.

Definition count : Z := Z.of_nat (length object_list).

(** [ceil(max(1, count) / per_page)]: an empty list still has its
    first page. *)
Definition num_pages : Z := (Z.max 1 count + per_page - 1) / per_page.

Inductive validated : Type :=
  | PageNotAnInteger
  | EmptyPage
  | Valid (number : Z).

Definition validate_number (number : option string) : validated :=
  match number ≫= Text.int with
  | None => PageNotAnInteger
  | Some n =>
      if n <? 1 then EmptyPage
      else if num_pages <? n then EmptyPage
      else Valid n
  end.

(** The slice [object_list[bottom:top]] of page [number]. *)
Definition page (number : Z) : list A :=
  let bottom := (number - 1) * per_page in
  let top := bottom + per_page in
  let top := if count <=? top then count else top in
  drop (Z.to_nat bottom) (take (Z.to_nat top) object_list).

(** [get_page]: a page for every input, the first one for a number
    that does not parse and the last one for a number out of range. *)
Definition get_page_number (number : option string) : Z :=
  match validate_number number with
  | PageNotAnInteger => 1
  | EmptyPage => num_pages
  | Valid n => n
  end.

Definition get_page (number : option string) : Z * list A :=
  let n := get_page_number number in (n, page n).
End paginator.
End Paginator.

(** ** Orderings of the listing *)

(** Order on pairs of sort keys: by the first key, ties by the second.
    Text keys compare by [String.le], the bytewise order of a binary
    collation. *)
Definition lex_le {A B : Type} (RA : relation A) (RB : relation B)
    : relation (A * B) :=
  λ x y, (RA x.1 y.1 ∧ x.1 ≠ y.1) ∨ (x.1 = y.1 ∧ RB x.2 y.2).

Global Instance lex_le_dec {A B : Type} (RA : relation A) (RB : relation B)
    `{!EqDecision A, !RelDecision RA, !RelDecision RB} :
  RelDecision (lex_le RA RB).
Proof. intros x y. unfold lex_le. apply _. Defined.

(** Rows compared through a sort key. *)
Definition on_key {K : Type} (R : relation K) (key : Annotated → K)
    : relation Annotated :=
  λ a b, R (key a) (key b).

Global Instance on_key_dec {K : Type} (R : relation K) `{!RelDecision R}
    (key : Annotated → K) : RelDecision (on_key R key).
Proof. intros a b. unfold on_key. apply _. Defined.

(** [order_by] on a computed key, ascending. *)
Definition order_by_key {K : Type} (R : relation K) `{!RelDecision R}
    (key : Annotated → K) (qs : list Annotated) : list Annotated :=
  merge_sort (on_key R key) qs.

(** ** The listing view *)

Module BookList.

Definition param (request : HttpRequest) (k : string) : option string :=
  GET request !! k.

(** [request.GET.get(k, "").strip()] *)
Definition stripped (request : HttpRequest) (k : string) : string :=
  Text.strip (default "" (param request k)).

Definition q (request : HttpRequest) : string := stripped request "q".
Definition title_param (request : HttpRequest) : string := stripped request "title".
Definition author_param (request : HttpRequest) : string := stripped request "author".
Definition isbn_param (request : HttpRequest) : string := stripped request "isbn".
Definition show_only_available (request : HttpRequest) : bool :=
  bool_decide (param request "disponivel" = Some "1").
Definition categoria_id (request : HttpRequest) : option string :=
  param request "categoria".
Definition idioma (request : HttpRequest) : string := stripped request "idioma".
Definition ano_min (request : HttpRequest) : option string := param request "ano_min".
Definition ano_max (request : HttpRequest) : option string := param request "ano_max".
Definition ordenar (request : HttpRequest) : string :=
  default "title" (param request "ordenar").
Definition mostrar_param (request : HttpRequest) : string :=
  default "20" (param request "mostrar").

(** [Book.objects.all().annotate(active_loans=Count(...))] *)
Definition annotate (db : DB) (b : Book.t) : Annotated :=
  mkAnnotated b (Z.of_nat (size (active_loans_of db (Book.id b)))).

Definition base_qs (db : DB) : list Annotated := annotate db <$> books db.

Definition title (a : Annotated) : string := Book.title (row a).
Definition author (a : Annotated) : string := Book.author (row a).
Definition isbn (a : Annotated) : string := Book.isbn (row a).

(** [F("copies_total") - F("active_loans")] *)
Definition disponiveis (a : Annotated) : Z :=
  Book.copies_total (row a) - active_loans a.

(** A filter applied only when its guard holds. *)
Definition filter_if (guard : bool) (p : Annotated → bool)
    (qs : list Annotated) : list Annotated :=
  if guard then List.filter p qs else qs.

(** The free-text term, or else the fields of the advanced search. *)
Definition text_filter (request : HttpRequest) (qs : list Annotated)
    : list Annotated :=
  let q := q request in
  if Text.truthy q then
    List.filter
      (λ a, Text.icontains (title a) q || Text.icontains (author a) q
            || Text.icontains (isbn a) q) qs
  else
    let qs := filter_if (Text.truthy (title_param request))
                (λ a, Text.icontains (title a) (title_param request)) qs in
    let qs := filter_if (Text.truthy (author_param request))
                (λ a, Text.icontains (author a) (author_param request)) qs in
    filter_if (Text.truthy (isbn_param request))
      (λ a, Text.icontains (isbn a) (isbn_param request)) qs.

Definition digits (o : option string) : option Z :=
  match o with
  | Some s => if Text.truthy s && Text.isdigit s then Text.digits_value 0 s else None
  | None => None
  end.

Definition available (a : Annotated) : bool :=
  active_loans a <? Book.copies_total (row a).

Definition in_category (c : Z) (a : Annotated) : bool :=
  bool_decide (Book.category (row a) = Some c).

Definition in_language (lang : string) (a : Annotated) : bool :=
  Text.iexact (Book.language (row a)) lang.

Definition year_gte (y : Z) (a : Annotated) : bool :=
  match Book.edition_year (row a) with
  | Some e => y <=? e
  | None => false
  end.

Definition year_lte (y : Z) (a : Annotated) : bool :=
  match Book.edition_year (row a) with
  | Some e => e <=? y
  | None => false
  end.

(** A filter whose argument is a number, applied only when the
    parameter is present and all digits. *)
Definition filter_digits (o : option string) (p : Z → Annotated → bool)
    (qs : list Annotated) : list Annotated :=
  match digits o with
  | Some n => List.filter (p n) qs
  | None => qs
  end.

(** Availability, category, language and edition-year filters. *)
Definition other_filters (request : HttpRequest) (qs : list Annotated)
    : list Annotated :=
  let qs := filter_if (show_only_available request) available qs in
  let qs := filter_digits (categoria_id request) in_category qs in
  let qs := filter_if (Text.truthy (idioma request))
              (in_language (idioma request)) qs in
  let qs := filter_digits (ano_min request) year_gte qs in
  filter_digits (ano_max request) year_lte qs.

(** The queryset before ordering. *)
Definition filtered (request : HttpRequest) (db : DB) : list Annotated :=
  other_filters request (text_filter request (base_qs db)).

Definition lower_author_title (a : Annotated) : string * string :=
  (Text.lower (author a), title a).
Definition disponiveis_title (a : Annotated) : Z * string :=
  (disponiveis a, title a).
Definition lower_title (a : Annotated) : string :=
  Text.lower (title a).

Definition order (request : HttpRequest) (qs : list Annotated)
    : list Annotated :=
  if String.eqb (ordenar request) "author" then
    order_by_key (lex_le String.le String.le) lower_author_title qs
  else if String.eqb (ordenar request) "disponibilidade" then
    order_by_key (lex_le Z.le String.le) disponiveis_title qs
  else
    order_by_key String.le lower_title qs.

(** The queryset [qs] that every response path reads. *)
Definition qs (request : HttpRequest) (db : DB) : list Annotated :=
  order request (filtered request db).

End BookList.

Module BookListView.
Import BookList.

Definition header : list Cell :=
  [CText "Título"; CText "Autor"; CText "ISBN"; CText "Disponíveis";
   CText "Categoria"; CText "Idioma"; CText "Ano"].

(** One exported line.  [b.category.name if b.category else ""] and
    [b.edition_year or ""]: a missing category and a missing or zero
    year are written as the empty text. *)
Definition export_row (db : DB) (a : Annotated) : list Cell :=
  let b := row a in
  [CText (Book.title b); CText (Book.author b); CText (Book.isbn b);
   CNum (Z.max (Book.copies_total b - active_loans a) 0);
   CText (default "" (Book.category b ≫= λ c, categories db !! c));
   CText (Book.language b);
   match Book.edition_year b with
   | Some y => if y =? 0 then CText "" else CNum y
   | None => CText ""
   end].

Definition export_table (db : DB) (qs : list Annotated) : list (list Cell) :=
  header :: (export_row db <$> qs).

Definition limite : nat := 8.

Definition suggestions (qs : list Annotated) : HttpResponse :=
  JsonResponse (take limite (title <$> qs)) (take limite (author <$> qs))
               (take limite (isbn <$> qs)).

(** The argument of [any([...])] that decides whether the search is
    recorded. *)
Definition history_terms (request : HttpRequest) : list bool :=
  [Text.truthy (q request); Text.truthy (title_param request);
   Text.truthy (author_param request); Text.truthy (isbn_param request);
   show_only_available request; Text.truthy_opt (categoria_id request);
   Text.truthy (idioma request); Text.truthy_opt (ano_min request);
   Text.truthy_opt (ano_max request)].

Definition any (l : list bool) : bool := existsb id l.

(** [request.session.session_key or ""], a fresh session when empty. *)
Definition session_key_of (env : Env) (request : HttpRequest) : string :=
  let session_key := default "" (session_key request) in
  if Text.truthy session_key then session_key else new_session_key env.

Definition search_record (env : Env) (request : HttpRequest) : SearchQuery.t :=
  SearchQuery.mk
    (if is_authenticated (user request) then Some (user_id (user request))
     else None)
    (session_key_of env request)
    (q request)
    (SearchQuery.mk_params (show_only_available request)
       (categoria_id request) (idioma request) (ano_min request)
       (ano_max request) (ordenar request) (title_param request)
       (author_param request) (isbn_param request))
    (now env).

(** The history step: one [SearchQuery.objects.create] when a term or
    a filter was used.  The store accepts the row; a failing store is
    outside this model. *)
Definition record_history (env : Env) (request : HttpRequest) (db : DB) : DB :=
  if any (history_terms request) then add_search db (search_record env request)
  else db.

Definition per_page : Z := 20.

(** The pagination step: [(page_obj, books)]. *)
Definition paginate (request : HttpRequest) (qs : list Annotated)
    : option Z * list Annotated :=
  if String.eqb (mostrar_param request) "todos" then (None, qs)
  else
    let '(n, object_list) :=
      Paginator.get_page qs per_page (param request "page") in
    (Some n, object_list).

Definition context (request : HttpRequest) (db : DB) (qs : list Annotated)
    : Context :=
  let '(page_obj, books) := paginate request qs in
  mkContext books page_obj (q request) (show_only_available request)
    (mostrar_param request) (Z.of_nat (length qs)) (ordenar request)
    (categories db) (categoria_id request) (idioma request)
    (default "" (ano_min request)) (default "" (ano_max request))
    (title_param request) (author_param request) (isbn_param request).

Definition book_list_view (env : Env) : View :=
  λ request db,
    let qs := qs request db in
    if bool_decide (param request "suggest" = Some "1")
       && Text.truthy (q request) then
      (db, suggestions qs)
    else if bool_decide (param request "export" = Some "csv") then
      (db, CsvAttachment "livros.csv" (export_table db qs))
    else if bool_decide (param request "export" = Some "xlsx") then
      if openpyxl_installed env then
        (db, XlsxAttachment "livros.xlsx" (export_table db qs))
      else (db, ServerError500)
    else
      let db' := record_history env request db in
      (db', Render "catalog/book_list.html" (context request db' qs)).

Definition book_list (env : Env) : View := login_required (book_list_view env).




End BookListView.

(** ** The operations that write the loan ledger, as a transition system *)

Inductive Op : Type :=
  | Borrow (book_id : Z)
  | Return (loan_id : Z)
  | AdminMarkReturned (loan_id : Z)
  | BulkMarkReturned (queryset : gset Z)
  | ListBooks.

(** One call: the operation, the request it is called with and the
    environment at that moment. *)
Record Call : Type := mkCall { call_env : Env; call_request : HttpRequest; call_op : Op }.

Definition step (c : Call) (db : DB) : DB :=
  let env := call_env c in
  let request := call_request c in
  match call_op c with
  | Borrow book_id => (borrow_book env book_id request db).1
  | Return loan_id => (return_book env loan_id request db).1
  | AdminMarkReturned loan_id => (admin_mark_returned env loan_id request db).1
  | BulkMarkReturned queryset => (LoanAdmin.marcar_como_devolvido env queryset db).1
  | ListBooks => (BookListView.book_list env request db).1
  end.

(** A history of calls, the earliest first. *)
Definition run (calls : list Call) (db : DB) : DB :=
  foldl (λ db c, step c db) db calls.

(** ** A small library used to exercise the definitions *)

Module Sample.

Definition env0 : Env := mkEnv 1000 100 "k-new" true.
Definition env1 : Env := mkEnv 2000 101 "k-newer" false.

Definition alice : User := mkUser 1 true false.
Definition bob : User := mkUser 2 true false.
Definition staff : User := mkUser 3 true true.

Definition farm : Book.t :=
  Book.mk 1 "Animal Farm" "George Orwell" "9780451526342" (Some 1) "en" (Some 1945) 2.
Definition dune : Book.t :=
  Book.mk 2 "Dune" "Frank Herbert" "9780441013593" (Some 2) "en" (Some 1965) 1.
Definition cortico : Book.t :=
  Book.mk 3 "O Cortiço" "Aluísio Azevedo" "9788508040810" None "pt" None 1.

Definition loan1 : Loan.t := Loan.mk 2 1 500 50 None.
Definition loan2 : Loan.t := Loan.mk 1 2 400 40 (Some 450).

Definition db0 : DB :=
  mkDB [farm; dune; cortico]
       {[ 1 := "Fiction"; 2 := "Science fiction" ]}
       {[ 1 := loan1; 2 := loan2 ]}
       [].

Definition post (u : User) : HttpRequest := mkRequest "POST" u ∅ None.
Definition get (u : User) (args : list (string * string)) : HttpRequest :=
  mkRequest "GET" u (list_to_map args) (Some "k-alice").

End Sample.

(** ** The search rules in the words of the specification *)

Module SearchRules.
Import BookList.







(** Availability order: fewer available copies first, equal ones by
    title. *)
Definition by_availability : relation Annotated :=
  λ a b, disponiveis a < disponiveis b
         ∨ (disponiveis a = disponiveis b ∧ String.le (title a) (title b)).

End SearchRules.

(** A step of the pipeline that keeps the rows passing some test. *)
Definition is_filter (F : list Annotated → list Annotated) : Prop :=
  ∃ p, ∀ l, F l = List.filter p l.

(** ** The read-only views *)

(** A cell of the exported search history: the [created_at] that
    [strftime] prints, a text, or the stored [params] object. *)
Inductive HistoryCell : Type :=
  | HDate (created_at : Z)
  | HText (s : string)
  | HParams (params : SearchQuery.params_t).

(** What a read-only view answers.  The rows of an unordered queryset of
    loans are given by primary key. *)
Inductive PageResponse : Type :=
  | PageRedirectToLogin
  | PageHttp404
  | PageServerError500
  | MyLoansPage (loans : gmap Z Loan.t)
  | BorrowersPage (book : Book.t) (active_loans : gmap Z Loan.t)
  | OverduePage (loans : gmap Z Loan.t)
  | AdvancedSearchPage (categorias : gmap Z string) (languages : list string)
  | SearchHistoryPage (searches : list SearchQuery.t)
  | SearchHistoryCsv (filename : string) (table : list (list HistoryCell))
  | SearchHistoryXlsx (filename : string) (table : list (list HistoryCell)).

Definition PageView : Type := HttpRequest → DB → PageResponse.

(** [login_required] and [user_passes_test] around a read-only view. *)
Definition page_guard (test : User → bool) (view : PageView) : PageView :=
  λ request db,
    if test (user request) then view request db else PageRedirectToLogin.

Module Pages.

(** [Loan.objects.filter(user=request.user)] *)
Definition loans_of (db : DB) (u : User) : gmap Z Loan.t :=
  filter (λ kl, Loan.user kl.2 = user_id u) (loans db).

Definition my_loans : PageView :=
  page_guard is_authenticated (λ request db, MyLoansPage (loans_of db (user request))).

Definition admin_book_borrowers (book_id : Z) : PageView :=
  page_guard _is_staff
    (λ request db,
       match get_book db book_id with
       | None => PageHttp404
       | Some book => BorrowersPage book (active_loans_of db book_id)
       end).

(** [Loan.objects.filter(returned_at__isnull=True, due_date__lt=today)] *)
Definition overdue (today : Z) (db : DB) : gmap Z Loan.t :=
  filter (λ kl, Loan.returned_at kl.2 = None ∧ Loan.due_date kl.2 < today)
         (loans db).

Definition admin_overdue_loans (env : Env) : PageView :=
  page_guard _is_staff (λ request db, OverduePage (overdue (localdate env) db)).

(** The languages offered by the advanced search: the non-empty
    [language] values, each once, in ascending order. *)
Definition languages (db : DB) : list string :=
  merge_sort String.le
    (remove_dups
       (List.filter (λ lang, negb (String.eqb lang "")) (Book.language <$> books db))).

Definition advanced_search : PageView :=
  page_guard is_authenticated
    (λ request db, AdvancedSearchPage (categories db) (languages db)).

Section search_history.
(** The default ordering of [SearchQuery] is declared in the absent
    [catalog/models.py]; it is a parameter here. *)
Variable ordering : list SearchQuery.t → list SearchQuery.t.

(** [SearchQuery.objects.filter(...)[:100]] *)
Definition first_100 (p : SearchQuery.t → bool) (db : DB) : list SearchQuery.t :=
  take 100 (ordering (List.filter p (searches db))).

Definition history_qs (request : HttpRequest) (db : DB) : list SearchQuery.t :=
  if is_authenticated (user request) then
    first_100
      (λ s, bool_decide (SearchQuery.user s = Some (user_id (user request)))) db
  else
    match session_key request with
    | Some key =>
        if Text.truthy key then
          first_100 (λ s, String.eqb (SearchQuery.session_key s) key) db
        else []
    | None => []
    end.

Definition history_header : list HistoryCell :=
  [HText "Data/Hora"; HText "Termo livre (q)"; HText "Parâmetros JSON"].

Definition history_row (s : SearchQuery.t) : list HistoryCell :=
  [HDate (SearchQuery.created_at s); HText (SearchQuery.q s);
   HParams (SearchQuery.params s)].

Definition history_table (qs : list SearchQuery.t) : list (list HistoryCell) :=
  history_header :: (history_row <$> qs).

Definition search_history_view (env : Env) : PageView :=
  λ request db,
    let qs := history_qs request db in
    let export_format := GET request !! "export" in
    if bool_decide (export_format = Some "csv") then
      SearchHistoryCsv "historico_buscas.csv" (history_table qs)
    else if bool_decide (export_format = Some "xlsx") then
      if openpyxl_installed env then
        SearchHistoryXlsx "historico_buscas.xlsx" (history_table qs)
      else PageServerError500
    else SearchHistoryPage qs.

Definition search_history (env : Env) : PageView :=
  page_guard is_authenticated (search_history_view env).
End search_history.

(** The searches a response of [search_history] carries. *)
Definition shown_searches (r : PageResponse) : option (list (list HistoryCell)) :=
  match r with
  | SearchHistoryPage qs => Some (history_row <$> qs)
  | SearchHistoryCsv _ table | SearchHistoryXlsx _ table => Some (tail table)
  | _ => None
  end.

End Pages.

(** ** Conditions on the database and on histories of calls *)

(** Primary keys of the book table are distinct. *)
Definition unique_book_ids (db : DB) : Prop := NoDup (Book.id <$> books db).

(** No book has more active loans than copies. *)
Definition within_capacity (db : DB) : Prop :=
  ∀ b, b ∈ books db →
    Z.of_nat (size (active_loans_of db (Book.id b))) ≤ Book.copies_total b.

(** The call goes through a view, which checks who is calling; the
    admin action is reached through the admin site instead. *)
Definition is_view_call (c : Call) : Prop :=
  match call_op c with
  | BulkMarkReturned _ => False
  | _ => True
  end.


(** Two loan rows that differ at most in [returned_at]. *)
Definition same_loan (l l' : Loan.t) : Prop :=
  Loan.book l' = Loan.book l ∧ Loan.user l' = Loan.user l
  ∧ Loan.borrowed_at l' = Loan.borrowed_at l
  ∧ Loan.due_date l' = Loan.due_date l.


(** ** The shopping cart of [04  Carrinho de compras.py] *)

Module Carrinho.
Section carrinho.
(** The type of prices (a [float] in the program) and [str.lower] are
    taken as they come. *)
Variable Preco : Type.
Variable lower : string → string.

Record Produto : Type := mkProduto {
  get_nome : string;
  get_preco : Preco;
  get_quantidade : Z
}.

(** An object of the cart: its identity and its state.  The same object
    added twice is the same pair twice. *)
Definition Objeto : Type := nat * Produto.

(** [self.produtos.append(produto)] *)
Definition adicionar_produto (produto : Objeto) (produtos : list Objeto)
    : list Objeto :=
  produtos ++ [produto].

(** [list.remove(x)]: the first item equal to [x] goes; [Produto]
    defines no equality, so equal means the same object. *)
Fixpoint list_remove (ident : nat) (l : list Objeto) : list Objeto :=
  match l with
  | [] => []
  | o :: l' => if decide (o.1 = ident) then l' else o :: list_remove ident l'
  end.

(** [produto.get_nome().lower() == nome.lower()] *)
Definition same_name (nome : string) (o : Objeto) : bool :=
  String.eqb (lower (get_nome o.2)) (lower nome).

(** The [for] loop over [self.produtos], which the body shortens while
    it runs: the iterator holds an index [i] and stops when [i] is past
    the end of the list as it is then.  [fuel] bounds the turns. *)
Fixpoint remover_loop (fuel i : nat) (nome : string) (produtos : list Objeto)
    : list Objeto :=
  match fuel with
  | O => produtos
  | S fuel =>
      match produtos !! i with
      | None => produtos
      | Some produto =>
          if same_name nome produto then
            remover_loop fuel (S i) nome (list_remove produto.1 produtos)
          else remover_loop fuel (S i) nome produtos
      end
  end.

(** [remover_produto(self, nome)]: the cart after the loop and the line
    printed.  The loop takes at most one turn per product. *)
Definition remover_produto (nome : string) (produtos : list Objeto)
    : list Objeto * string :=
  (remover_loop (length produtos) 0 nome produtos,
   "Produto '" +:+ nome +:+ "' removido do carrinho.").

(** What the loop comes to on distinct objects: a product of that name
    goes and the product after it is passed over. *)
Fixpoint remove_and_skip (nome : string) (l : list Objeto) : list Objeto :=
  match l with
  | [] => []
  | x :: l' =>
      if same_name nome x then
        match l' with
        | [] => []
        | y :: l'' => y :: remove_and_skip nome l''
        end
      else x :: remove_and_skip nome l'
  end.

(** No two neighbours in the cart both have the name. *)
Definition no_neighbours (nome : string) (l : list Objeto) : Prop :=
  ∀ i x y, l !! i = Some x → l !! S i = Some y →
    same_name nome x = true → same_name nome y = false.
End carrinho.
End Carrinho.

(** Three products to exercise the cart. *)
Module SampleCart.
Definition arroz : Carrinho.Objeto Z := (0%nat, Carrinho.mkProduto Z "arroz" 5 1).
Definition arroz_integral : Carrinho.Objeto Z := (1%nat, Carrinho.mkProduto Z "Arroz" 7 2).
Definition feijao : Carrinho.Objeto Z := (2%nat, Carrinho.mkProduto Z "feijao" 8 1).
End SampleCart.

(** * Properties *)

(** ** Shared facts *)

Lemma method_post request :
  method request = "POST" → negb (String.eqb (method request) "POST") = false.
Proof. intros ->. reflexivity. Qed.



Lemma fresh_loan_key db :
  loans db !! fresh (dom (loans db)) = None.
Proof. apply not_elem_of_dom, is_fresh. Qed.

(** A new active loan of a book adds one to the book's active loans. *)
Lemma active_loans_of_create env book_id uid due db :
  size (active_loans_of (create_loan env book_id uid due db) book_id)
  = S (size (active_loans_of db book_id)).
Proof.
  unfold active_loans_of, create_loan. cbn [loans set_loans].
  rewrite map_filter_insert_True by done.
  apply map_size_insert_None, map_lookup_filter_None_2.
  left. apply not_elem_of_dom, is_fresh.
Qed.

(** The loop of the bulk action leaves every row alone whose key is not
    among the rows it walks over. *)
Lemma mark_one_foldl_other now (todo : list (Z * Loan.t)) acc k :
  k ∉ todo.*1 →
  (foldl (LoanAdmin.mark_one now) acc todo).1 !! k = acc.1 !! k.
Proof.
  revert acc. induction todo as [|[k' l'] todo IH]; intros acc Hk; [done|].
  rewrite fmap_cons, not_elem_of_cons in Hk. destruct Hk as [Hne Hk].
  cbn [foldl]. rewrite IH by done.
  cbn. by apply lookup_insert_ne.
Qed.

Lemma marcar_como_devolvido_keeps_returned env queryset db k l t :
  loans db !! k = Some l → Loan.returned_at l = Some t →
  loans (LoanAdmin.marcar_como_devolvido env queryset db).1 !! k = Some l.
Proof.
  intros Hk Ht. unfold LoanAdmin.marcar_como_devolvido.
  destruct (foldl _ _ _) as [ls updated] eqn:Hfold. cbn [fst loans set_loans].
  change ls with (ls, updated).1. rewrite <- Hfold.
  rewrite mark_one_foldl_other; [done|].
  intros ([k' l'] & -> & Hin)%list_elem_of_fmap.
  apply elem_of_map_to_list, map_lookup_filter_Some in Hin as [Hin [_ Hnone]].
  cbn in *. congruence.
Qed.

(** Each call keeps a returned loan exactly as it is. *)
Lemma step_keeps_returned c db k l t :
  loans db !! k = Some l → Loan.returned_at l = Some t →
  loans (step c db) !! k = Some l.
Proof.
  intros Hk Ht. destruct c as [env request op]. unfold step. cbn.
  destruct op as [book_id|loan_id|loan_id|queryset|].
  - unfold borrow_book, login_required, borrow_book_view.
    destruct (is_authenticated _); [|done].
    destruct (get_book _ _); [|done].
    destruct (negb _); [done|]. destruct (_ <=? _); [done|].
    cbn. rewrite lookup_insert_ne; [done|].
    intros Heq. pose proof (fresh_loan_key db). congruence.
  - unfold return_book, login_required, return_book_view.
    destruct (is_authenticated _); [|done].
    destruct (get_own_loan _ _ _) as [loan|] eqn:Hown; [|done].
    destruct (negb _); [done|].
    destruct (Loan.returned_at loan) eqn:Hret; [done|].
    cbn. rewrite lookup_insert_ne; [done|].
    intros <-. unfold get_own_loan in Hown. rewrite Hk in Hown.
    case_bool_decide; congruence.
  - unfold admin_mark_returned, user_passes_test, admin_mark_returned_view.
    destruct (_is_staff _); [|done].
    destruct (loans db !! loan_id) as [loan|] eqn:Hl; [|done].
    destruct (negb _); [done|].
    destruct (Loan.returned_at loan) eqn:Hret; [done|].
    cbn. rewrite lookup_insert_ne; [done|]. congruence.
  - by eapply marcar_como_devolvido_keeps_returned.
  - unfold BookListView.book_list, login_required, BookListView.book_list_view.
    destruct (is_authenticated _); [|done].
    repeat (case_match; try done).
    unfold BookListView.record_history. by case_match.
Qed.

Module LoanLedger.

(** C1: when the book exists and its active loans have reached
    [copies_total], Borrow answers with the error message "no copies
    available" and the database, hence the set of loans of that book, is
    the one before the call. *)
Theorem borrow_no_copies env request db book_id book :
  is_authenticated (user request) = true →
  method request = "POST" →
  get_book db book_id = Some book →
  Book.copies_total book ≤ Z.of_nat (size (active_loans_of db book_id)) →
  borrow_book env book_id request db
    = (db, Redirect "catalog:book_list" [Msg error NoCopiesAvailable])
  ∧ filter (λ kl, Loan.book kl.2 = book_id)
      (loans (borrow_book env book_id request db).1)
    = filter (λ kl, Loan.book kl.2 = book_id) (loans db).
Proof.
  intros Hauth Hpost Hbook Hfull.
  assert (borrow_book env book_id request db
          = (db, Redirect "catalog:book_list" [Msg error NoCopiesAvailable]))
    as Hcall.
  { unfold borrow_book, login_required, borrow_book_view.
    rewrite Hauth, Hbook, (method_post _ Hpost).
    by rewrite (proj2 (Z.leb_le _ _) Hfull). }
  split; [exact Hcall | by rewrite Hcall].
Qed.

Lemma borrow_no_copies_witness :
  borrow_book Sample.env0 2 (Sample.post Sample.bob) Sample.db0
    = (Sample.db0, Redirect "catalog:book_list" [Msg error NoCopiesAvailable]).
Proof.
  apply (borrow_no_copies Sample.env0 (Sample.post Sample.bob) Sample.db0 2
           Sample.dune); [reflexivity | reflexivity | reflexivity |].
  vm_compute. discriminate.
Defined.

(** C2: when the book exists and its active loans are fewer than
    [copies_total], Borrow stores exactly one new row, under a key that
    was free: an active loan of that book for the caller, due fourteen
    days after today.  The response reports it with a success message
    naming the book and the due date, and the book's active loans grow by
    one. *)
Theorem borrow_creates_loan env request db book_id book :
  is_authenticated (user request) = true →
  method request = "POST" →
  get_book db book_id = Some book →
  Z.of_nat (size (active_loans_of db book_id)) < Book.copies_total book →
  ∃ loan_id,
    let created :=
      Loan.mk book_id (user_id (user request)) (now env) (localdate env + 14) None in
    loans db !! loan_id = None
    ∧ borrow_book env book_id request db
      = (set_loans db (<[loan_id := created]> (loans db)),
         Redirect "catalog:book_list"
           [Msg success (Borrowed (Book.title book) (localdate env + 14))])
    ∧ Loan.is_active created
    ∧ size (active_loans_of (borrow_book env book_id request db).1 book_id)
      = S (size (active_loans_of db book_id)).
Proof.
  intros Hauth Hpost Hbook Hfree.
  exists (fresh (dom (loans db))). cbn zeta.
  assert (borrow_book env book_id request db
          = (create_loan env book_id (user_id (user request)) (localdate env + 14) db,
             Redirect "catalog:book_list"
               [Msg success (Borrowed (Book.title book) (localdate env + 14))]))
    as Hcall.
  { unfold borrow_book, login_required, borrow_book_view.
    rewrite Hauth, Hbook, (method_post _ Hpost).
    by rewrite (proj2 (Z.leb_gt _ _) Hfree). }
  split_and!.
  - apply fresh_loan_key.
  - exact Hcall.
  - reflexivity.
  - rewrite Hcall. apply active_loans_of_create.
Qed.

Lemma borrow_creates_loan_witness :
  ∃ loan_id,
    loans Sample.db0 !! loan_id = None
    ∧ (borrow_book Sample.env0 1 (Sample.post Sample.bob) Sample.db0).2
      = Redirect "catalog:book_list" [Msg success (Borrowed "Animal Farm" 114)].
Proof.
  destruct (borrow_creates_loan Sample.env0 (Sample.post Sample.bob)
              Sample.db0 1 Sample.farm) as (loan_id & Hnew & Hcall & _);
    [reflexivity | reflexivity | reflexivity | vm_compute; reflexivity |].
  exists loan_id. split; [exact Hnew|]. rewrite Hcall. reflexivity.
Defined.

End LoanLedger.

Module LoanReturn.

(** C3: Return on a loan of the caller that is already returned changes
    nothing and answers with the informational message "already
    returned" (level [info], on the ordinary redirect).  Of two Return
    calls in a row on one loan, whatever the first did, the second
    changes nothing and reports "already returned"; on an active loan the
    first is the one transition, to [returned_at = now]. *)
Theorem return_idempotent env env' request db loan_id loan :
  is_authenticated (user request) = true →
  method request = "POST" →
  loans db !! loan_id = Some loan →
  Loan.user loan = user_id (user request) →
  let already := Redirect "catalog:my_loans" [Msg info AlreadyReturned] in
  let first := return_book env loan_id request db in
  let second := return_book env' loan_id request first.1 in
  (is_Some (Loan.returned_at loan) → first = (db, already))
  ∧ (Loan.returned_at loan = None →
       first.1 = set_loans db (<[loan_id := Loan.mark_returned (now env) loan]> (loans db))
       ∧ first.2 = Redirect "catalog:my_loans"
                     [Msg success (Returned (loan_book_title db loan))])
  ∧ second = (first.1, already)
  ∧ Loan.returned_at <$> loans second.1 !! loan_id
    = Loan.returned_at <$> loans first.1 !! loan_id.
Proof.
  intros Hauth Hpost Hloan Howner already first second.
  assert (∀ e d l, loans d !! loan_id = Some l →
            Loan.user l = user_id (user request) →
            return_book e loan_id request d
            = match Loan.returned_at l with
              | Some _ => (d, already)
              | None => (save_returned e loan_id l d,
                         Redirect "catalog:my_loans"
                           [Msg success (Returned (loan_book_title d l))])
              end) as Hcall.
  { intros e d l Hl Hu.
    unfold return_book, login_required, return_book_view, get_own_loan.
    rewrite Hauth, Hl, bool_decide_true by done.
    by rewrite (method_post _ Hpost). }
  assert (second = (first.1, already)) as Hsecond.
  { subst first second. rewrite (Hcall env db loan) by done.
    destruct (Loan.returned_at loan) eqn:Hret; cbn [fst].
    - rewrite (Hcall env' db loan) by done. by rewrite Hret.
    - rewrite (Hcall env' _ (Loan.mark_returned (now env) loan)); [done| |done].
      cbn. apply lookup_insert_eq. }
  split_and!.
  - intros [t Ht]. subst first. rewrite (Hcall env db loan) by done.
    by rewrite Ht.
  - intros Hnone. subst first. rewrite (Hcall env db loan) by done.
    by rewrite Hnone.
  - exact Hsecond.
  - by rewrite Hsecond.
Qed.

Lemma return_idempotent_witness :
  return_book Sample.env1 1 (Sample.post Sample.alice)
    (return_book Sample.env0 1 (Sample.post Sample.alice) Sample.db0).1
  = ((return_book Sample.env0 1 (Sample.post Sample.alice) Sample.db0).1,
     Redirect "catalog:my_loans" [Msg info AlreadyReturned]).
Proof.
  refine (proj1 (proj2 (proj2
    (return_idempotent Sample.env0 Sample.env1 (Sample.post Sample.alice)
       Sample.db0 1 Sample.loan1 _ _ _ _)))); reflexivity.
Defined.

(** C4: a loan that has been returned stays as it is.  Through any
    history of calls of the operations (Borrow, Return, the staff view
    that marks one loan returned, the admin's bulk action, the listing)
    the row of a loan whose [returned_at] is set is unchanged; its
    [returned_at] in particular is never changed and never null again. *)
Theorem returned_loan_never_reopens calls db loan_id loan t :
  loans db !! loan_id = Some loan →
  Loan.returned_at loan = Some t →
  loans (run calls db) !! loan_id = Some loan
  ∧ Loan.returned_at <$> loans (run calls db) !! loan_id = Some (Some t).
Proof.
  intros Hloan Ht.
  assert (loans (run calls db) !! loan_id = Some loan) as Hrun.
  { revert db Hloan. unfold run.
    induction calls as [|c calls IH]; intros db Hloan; [done|].
    cbn [foldl]. apply IH. by eapply step_keeps_returned. }
  split; [exact Hrun|]. by rewrite Hrun, <- Ht.
Qed.

Lemma returned_loan_never_reopens_witness :
  loans (run [mkCall Sample.env0 (Sample.post Sample.bob) (Return 2);
              mkCall Sample.env0 (Sample.post Sample.staff) (AdminMarkReturned 2);
              mkCall Sample.env1 (Sample.post Sample.staff) (BulkMarkReturned {[1; 2]});
              mkCall Sample.env1 (Sample.post Sample.bob) (Borrow 1)]
             Sample.db0) !! 2
  = Some Sample.loan2.
Proof.
  refine (proj1 (returned_loan_never_reopens _ Sample.db0 2 Sample.loan2 450 _ _));
    reflexivity.
Defined.

(** C5, as the code has it: Return by an actor who is not the loan's
    borrower ends in the not-found failure and writes nothing, and that
    is the very outcome of Return on a loan id that does not exist. *)
Theorem return_not_owner_not_found env request db loan_id loan :
  loans db !! loan_id = Some loan →
  Loan.user loan ≠ user_id (user request) →
  is_authenticated (user request) = true →
  return_book env loan_id request db = (db, Http404)
  ∧ ∀ missing, loans db !! missing = None →
      return_book env missing request db
      = return_book env loan_id request db.
Proof.
  intros Hloan Hother Hauth.
  unfold return_book, login_required, return_book_view, get_own_loan.
  rewrite Hauth, Hloan, bool_decide_false by done.
  split; [done|]. intros missing ->. done.
Qed.

Lemma return_not_owner_not_found_witness :
  return_book Sample.env0 1 (Sample.post Sample.bob) Sample.db0
  = (Sample.db0, Http404).
Proof.
  refine (proj1 (return_not_owner_not_found Sample.env0 (Sample.post Sample.bob)
                   Sample.db0 1 Sample.loan1 _ _ _));
    [reflexivity | vm_compute; discriminate | reflexivity].
Defined.

(** C5, as stated, fails: loan 1 exists and belongs to another user, the
    caller is an authenticated user who is not staff, and Return answers
    exactly as it does for the absent loan 99; no outcome sets the two
    apart. *)
Lemma return_not_owner_same_as_missing :
  loans Sample.db0 !! 1 = Some Sample.loan1
  ∧ Loan.user Sample.loan1 ≠ user_id Sample.bob
  ∧ _is_staff Sample.bob = false
  ∧ loans Sample.db0 !! 99 = None
  ∧ return_book Sample.env0 1 (Sample.post Sample.bob) Sample.db0
    = return_book Sample.env0 99 (Sample.post Sample.bob) Sample.db0
  ∧ (return_book Sample.env0 1 (Sample.post Sample.bob) Sample.db0).2 = Http404.
Proof. split_and!; try reflexivity. vm_compute. discriminate. Qed.

End LoanReturn.

(** ** Facts about the search pipeline *)





Lemma elem_of_List_filter {A} (p : A → bool) (l : list A) x :
  x ∈ List.filter p l ↔ x ∈ l ∧ p x = true.
Proof. rewrite !list_elem_of_In. apply filter_In. Qed.







(** A filter step and a row test commute on membership. *)
Lemma is_filter_elem_of F p l a :
  is_filter F →
  a ∈ F (List.filter p l) ↔ a ∈ F l ∧ p a = true.
Proof.
  intros [r Hr]. rewrite !Hr, !elem_of_List_filter. tauto.
Qed.



Lemma order_Permutation request l : BookList.order request l ≡ₚ l.
Proof.
  unfold BookList.order, order_by_key.
  repeat case_match; apply merge_sort_Permutation.
Qed.





Module TextSearch.
Import BookList SearchRules.



End TextSearch.

(** ** Facts about the orderings *)

Global Instance lex_le_total {A B : Type} (RA : relation A) (RB : relation B)
    `{!EqDecision A, !Total RA, !Total RB} : Total (lex_le RA RB).
Proof.
  intros [a1 b1] [a2 b2]. unfold lex_le. cbn.
  destruct (decide (a1 = a2)) as [->|Hne].
  - destruct (total RB b1 b2); [left | right]; by right.
  - destruct (total RA a1 a2); [left | right]; left; split; congruence.
Qed.

Global Instance lex_le_trans {A B : Type} (RA : relation A) (RB : relation B)
    `{!PartialOrder RA, !Transitive RB} : Transitive (lex_le RA RB).
Proof.
  intros [a1 b1] [a2 b2] [a3 b3]. unfold lex_le. cbn.
  intros [[H12 Hne12]|[-> H12]] [[H23 Hne23]|[-> H23]].
  - left. split; [by etrans|]. intros ->.
    apply Hne12. by apply (anti_symm RA).
  - left. by split.
  - left. by split.
  - right. split; [done | by etrans].
Qed.

Global Instance on_key_total {K : Type} (R : relation K)
    (key : Annotated → K) `{!Total R} : Total (on_key R key).
Proof. intros a b. apply (total R). Qed.

Global Instance on_key_trans {K : Type} (R : relation K)
    (key : Annotated → K) `{!Transitive R} : Transitive (on_key R key).
Proof. intros a b c. unfold on_key. apply transitivity. Qed.

Lemma StronglySorted_weaken {A} (R1 R2 : relation A) l :
  (∀ x y, R1 x y → R2 x y) → StronglySorted R1 l → StronglySorted R2 l.
Proof.
  intros Himpl. induction 1 as [|x l _ IH Hall]; constructor; [done|].
  eapply Forall_impl; [exact Hall | auto].
Qed.

Lemma by_availability_key a b :
  on_key (lex_le Z.le String.le) BookList.disponiveis_title a b
  ↔ SearchRules.by_availability a b.
Proof.
  unfold on_key, lex_le, SearchRules.by_availability,
    BookList.disponiveis_title. cbn. intuition lia.
Qed.

Lemma order_disponibilidade request l :
  BookList.ordenar request = "disponibilidade" →
  BookList.order request l
  = order_by_key (lex_le Z.le String.le) BookList.disponiveis_title l.
Proof. unfold BookList.order. by intros ->. Qed.

Module Ordering.
Import BookList SearchRules.

(** C7: with the sort key [disponibilidade] the queryset is the matching
    rows rearranged in ascending order of [copies_total - active_loans],
    rows of equal availability in the order of their titles.  Matching
    rows of availabilities 2, 0, 1 come out with availabilities 0, 1, 2. *)
Theorem order_by_availability request db :
  ordenar request = "disponibilidade" →
  BookList.qs request db ≡ₚ filtered request db
  ∧ StronglySorted by_availability (BookList.qs request db)
  ∧ (disponiveis <$> filtered request db = [2; 0; 1] →
     disponiveis <$> BookList.qs request db = [0; 1; 2]).
Proof.
  intros Hkey.
  assert (StronglySorted by_availability (BookList.qs request db)) as Hsorted.
  { unfold BookList.qs. rewrite (order_disponibilidade _ _ Hkey).
    eapply StronglySorted_weaken; [apply by_availability_key|].
    apply (StronglySorted_merge_sort _). }
  split_and!.
  - apply order_Permutation.
  - exact Hsorted.
  - intros Hav. apply (StronglySorted_unique Z.le).
    + eapply (StronglySorted_fmap disponiveis); [|exact Hsorted].
      unfold by_availability. intros x y. lia.
    + repeat constructor; lia.
    + rewrite (order_Permutation request (filtered request db) : BookList.qs request db ≡ₚ _).
      rewrite Hav. apply (Permutation_cons_app [0; 1] [] 2). reflexivity.
Qed.

Lemma order_by_availability_witness :
  disponiveis <$> BookList.qs
    (Sample.get Sample.alice [("ordenar", "disponibilidade")]) Sample.db0
  = [0; 1; 2].
Proof.
  refine (proj2 (proj2 (order_by_availability
    (Sample.get Sample.alice [("ordenar", "disponibilidade")]) Sample.db0 _)) _);
    vm_compute; reflexivity.
Defined.

End Ordering.

(** ** Facts about pagination *)










(** ** Facts about the search history *)




Module Listing.
Import BookList BookListView SearchRules.







End Listing.

(** ** The scenarios of the specification, run on the sample library *)

Module Scenarios.
Import Sample.

(** A book with two copies and no active loan: two borrows succeed, each
      due fourteen days after today, the third finds no copy. *)
Example borrow_twice_then_refused :
    let first := borrow_book env0 1 (post alice) db0 in
    let second := borrow_book env0 1 (post bob) first.1 in
    let third := borrow_book env1 1 (post alice) second.1 in
    first.2 = Redirect "catalog:book_list" [Msg success (Borrowed "Animal Farm" 114)]
    ∧ second.2 = Redirect "catalog:book_list" [Msg success (Borrowed "Animal Farm" 114)]
    ∧ third = (second.1, Redirect "catalog:book_list" [Msg error NoCopiesAvailable])
    ∧ size (active_loans_of third.1 1) = 2%nat.
Proof. vm_compute. done. Qed.

(** A search for "Orwell" finds the book whose author is written in
      another case. *)
Example search_orwell :
    BookList.title <$> BookList.qs (get alice [("q", "ORWELL")]) db0
    = ["Animal Farm"].
Proof. vm_compute. reflexivity. Qed.

(** The exported "Disponíveis" column is the availability, not below 0. *)
Example export_available_column :
    (λ line, line !! 3%nat) <$>
      BookListView.export_table db0 (BookList.qs (get alice []) db0)
    = [Some (CText "Disponíveis"); Some (CNum 2); Some (CNum 0); Some (CNum 1)].
Proof. vm_compute. reflexivity. Qed.

(** The bulk action stamps the selected active loan and skips the
      selected returned one. *)
Example bulk_action_on_sample :
    let '(db, message) := LoanAdmin.marcar_como_devolvido env1 {[1; 2; 7]} db0 in
    Loan.returned_at <$> loans db !! 1 = Some (Some 2000)
    ∧ loans db !! 2 = Some loan2
    ∧ message = Msg success (BulkReturned 1).
Proof. vm_compute. done. Qed.

End Scenarios.


(** * Further properties of the views and of the admin action *)

(** ** The loop of the bulk action in closed form *)


Lemma mark_one_foldl_lookup now (todo : list (Z * Loan.t)) acc k l :
  NoDup todo.*1 → (k, l) ∈ todo →
  (foldl (LoanAdmin.mark_one now) acc todo).1 !! k
  = Some (Loan.mark_returned now l).
Proof.
  revert acc. induction todo as [|[k' l'] todo IH]; intros acc Hnd Hin.
  - by apply elem_of_nil in Hin.
  - rewrite fmap_cons, NoDup_cons in Hnd. destruct Hnd as [Hk' Hnd].
    cbn [foldl]. apply elem_of_cons in Hin as [[= -> ->]|Hin].
    + rewrite mark_one_foldl_other by done. cbn. apply lookup_insert_eq.
    + by apply IH.
Qed.

(** After the action a selected active row carries the one [now]; every
    other row is as before. *)
Lemma marcar_como_devolvido_lookup env queryset db k :
  loans (LoanAdmin.marcar_como_devolvido env queryset db).1 !! k
  = (λ l, if decide (k ∈ queryset ∧ Loan.returned_at l = None)
          then Loan.mark_returned (now env) l else l) <$> loans db !! k.
Proof.
  unfold LoanAdmin.marcar_como_devolvido.
  destruct (foldl _ _ _) as [ls updated] eqn:Hfold. cbn [fst loans set_loans].
  change ls with (ls, updated).1. rewrite <- Hfold. clear Hfold.
  destruct (loans db !! k) as [l|] eqn:Hk; cbn.
  - destruct (decide _) as [[Hsel Hact]|Hnot].
    + apply mark_one_foldl_lookup; [apply NoDup_fst_map_to_list|].
      apply elem_of_map_to_list, map_lookup_filter_Some. by split.
    + rewrite mark_one_foldl_other; [done|].
      intros ([k' l'] & -> & Hin)%list_elem_of_fmap.
      apply elem_of_map_to_list, map_lookup_filter_Some in Hin as [Hin Hp].
      cbn in *. apply Hnot. by simplify_eq.
  - rewrite mark_one_foldl_other; [done|].
    intros ([k' l'] & -> & Hin)%list_elem_of_fmap.
    apply elem_of_map_to_list, map_lookup_filter_Some in Hin as [Hin _].
    cbn in *. congruence.
Qed.


Lemma marcar_como_devolvido_frame env queryset db :
  books (LoanAdmin.marcar_como_devolvido env queryset db).1 = books db
  ∧ categories (LoanAdmin.marcar_como_devolvido env queryset db).1 = categories db
  ∧ searches (LoanAdmin.marcar_como_devolvido env queryset db).1 = searches db.
Proof.
  unfold LoanAdmin.marcar_como_devolvido. by destruct (foldl _ _ _).
Qed.


(** ** What one call can do to the database *)

(** The five ways a call ends: nothing written, a loan created, a loan
    stamped as returned, the bulk action, or a search logged; each with
    the checks that were passed on the way. *)
Lemma step_effect c db :
  let env := call_env c in
  let request := call_request c in
  step c db = db
  ∨ (∃ book_id book,
       call_op c = Borrow book_id
       ∧ is_authenticated (user request) = true
       ∧ method request = "POST"
       ∧ get_book db book_id = Some book
       ∧ Z.of_nat (size (active_loans_of db book_id)) < Book.copies_total book
       ∧ step c db
         = create_loan env book_id (user_id (user request)) (localdate env + 14) db)
  ∨ (∃ loan_id loan,
       (call_op c = Return loan_id
        ∧ is_authenticated (user request) = true
        ∧ Loan.user loan = user_id (user request)
        ∨ call_op c = AdminMarkReturned loan_id
          ∧ _is_staff (user request) = true)
       ∧ method request = "POST"
       ∧ loans db !! loan_id = Some loan
       ∧ Loan.returned_at loan = None
       ∧ step c db = save_returned env loan_id loan db)
  ∨ (∃ queryset,
       call_op c = BulkMarkReturned queryset
       ∧ step c db = (LoanAdmin.marcar_como_devolvido env queryset db).1)
  ∨ (call_op c = ListBooks
     ∧ is_authenticated (user request) = true
     ∧ step c db = add_search db (BookListView.search_record env request)).
Proof.
  destruct c as [env request op]. cbn zeta. unfold step. cbn [call_env call_request call_op].
  destruct op as [book_id|loan_id|loan_id|queryset|].
  - unfold borrow_book, login_required, borrow_book_view.
    destruct (is_authenticated _) eqn:Hauth; [|by left].
    destruct (get_book _ _) as [book|] eqn:Hbook; [|by left].
    destruct (String.eqb_spec (method request) "POST") as [Hpost|]; [|by left].
    cbn [negb]. destruct (Z.leb_spec (Book.copies_total book)
      (Z.of_nat (size (active_loans_of db book_id)))); [by left|].
    right; left. by exists book_id, book.
  - unfold return_book, login_required, return_book_view, get_own_loan.
    destruct (is_authenticated _) eqn:Hauth; [|by left].
    destruct (loans db !! loan_id) as [loan|] eqn:Hloan; [|by left].
    case_bool_decide as Howner; [|by left].
    destruct (String.eqb_spec (method request) "POST") as [Hpost|]; [|by left].
    cbn [negb]. destruct (Loan.returned_at loan) eqn:Hret; [by left|].
    right; right; left. exists loan_id, loan. split_and!; try done. by left.
  - unfold admin_mark_returned, user_passes_test, admin_mark_returned_view.
    destruct (_is_staff _) eqn:Hstaff; [|by left].
    destruct (loans db !! loan_id) as [loan|] eqn:Hloan; [|by left].
    destruct (String.eqb_spec (method request) "POST") as [Hpost|]; [|by left].
    cbn [negb]. destruct (Loan.returned_at loan) eqn:Hret; [by left|].
    right; right; left. exists loan_id, loan. split_and!; try done. by right.
  - right; right; right; left. by exists queryset.
  - unfold BookListView.book_list, login_required, BookListView.book_list_view.
    destruct (is_authenticated _) eqn:Hauth; [|by left].
    destruct (_ && _); [by left|].
    destruct (bool_decide _); [by left|].
    destruct (bool_decide _); [destruct (openpyxl_installed env); by left|].
    cbn [fst]. unfold BookListView.record_history.
    destruct (BookListView.any _); [|by left].
    right; right; right; right. done.
Qed.

Lemma staff_is_authenticated u : _is_staff u = true → is_authenticated u = true.
Proof. unfold _is_staff. by intros [? _]%andb_true_iff. Qed.

(** Every call leaves the book and category tables alone and only adds
    to the search log. *)
Lemma step_frame c db :
  books (step c db) = books db
  ∧ categories (step c db) = categories db
  ∧ searches db `prefix_of` searches (step c db).
Proof.
  destruct (step_effect c db)
    as [->|[(? & ? & _ & _ & _ & _ & _ & ->)
       |[(? & ? & _ & _ & _ & _ & ->)|[(queryset & _ & ->)|(_ & _ & ->)]]]]; cbn.
  - done.
  - done.
  - done.
  - destruct (marcar_como_devolvido_frame (call_env c) queryset db)
      as (-> & -> & ->).
    done.
  - split_and!; [done..|]. by apply prefix_app_r.
Qed.

(** A row of the ledger after a call: a row from before, unchanged or
    stamped as returned having been active, or a newly created active
    loan. *)
Lemma step_row c db k l' :
  loans (step c db) !! k = Some l' →
  (∃ l, loans db !! k = Some l
        ∧ (l' = l
           ∨ Loan.returned_at l = None
             ∧ l' = Loan.mark_returned (now (call_env c)) l))
  ∨ (loans db !! k = None
     ∧ ∃ book_id, call_op c = Borrow book_id
       ∧ l' = Loan.mk book_id (user_id (user (call_request c)))
                (now (call_env c)) (localdate (call_env c) + 14) None).
Proof.
  destruct (step_effect c db)
    as [->|[(book_id & book & Hop & _ & _ & _ & _ & ->)
       |[(loan_id & loan & _ & _ & Hloan & Hact & ->)
       |[(queryset & _ & ->)|(_ & _ & ->)]]]]; cbn.
  - intros Hk. left. exists l'. auto.
  - destruct (decide (fresh (dom (loans db)) = k)) as [<-|Hne].
    + rewrite lookup_insert_eq. intros [= <-]. right.
      split; [apply fresh_loan_key|]. by exists book_id.
    + rewrite lookup_insert_ne by done. intros Hk. left. exists l'. auto.
  - destruct (decide (loan_id = k)) as [<-|Hne].
    + rewrite lookup_insert_eq. intros [= <-]. left. exists loan. auto.
    + rewrite lookup_insert_ne by done. intros Hk. left. exists l'. auto.
  - rewrite marcar_como_devolvido_lookup.
    destruct (loans db !! k) as [l|]; [|done]. cbn. intros [= <-].
    left. exists l. split; [done|]. case_decide as Hsel; [|by left].
    right. by destruct Hsel.
  - intros Hk. left. exists l'. auto.
Qed.

(** A row of the ledger before a call is still there after it,
    unchanged or stamped as returned having been active. *)
Lemma step_keeps_row c db k l :
  loans db !! k = Some l →
  ∃ l', loans (step c db) !! k = Some l'
        ∧ (l' = l
           ∨ Loan.returned_at l = None
             ∧ l' = Loan.mark_returned (now (call_env c)) l).
Proof.
  intros Hk.
  destruct (step_effect c db)
    as [->|[(book_id & book & Hop & _ & _ & _ & _ & ->)
       |[(loan_id & loan & _ & _ & Hloan & Hact & ->)
       |[(queryset & _ & ->)|(_ & _ & ->)]]]]; cbn.
  - exists l. auto.
  - exists l. split; [|by left]. rewrite lookup_insert_ne; [done|].
    intros Heq. pose proof (fresh_loan_key db). congruence.
  - destruct (decide (loan_id = k)) as [<-|Hne].
    + rewrite lookup_insert_eq. eexists. split; [done|]. right.
      by simplify_eq.
    + rewrite lookup_insert_ne by done. exists l. auto.
  - rewrite marcar_como_devolvido_lookup, Hk. cbn. eexists. split; [done|].
    case_decide as Hsel; [|by left]. right. by destruct Hsel.
  - exists l. auto.
Qed.

(** ** Facts about capacity *)

Lemma get_book_unique db book_id book b :
  unique_book_ids db → get_book db book_id = Some book →
  b ∈ books db → Book.id b = book_id → b = book.
Proof.
  unfold unique_book_ids, get_book. intros Hnd Hfind Hin Hid.
  induction (books db) as [|x xs IH]; [by apply elem_of_nil in Hin|].
  rewrite fmap_cons, NoDup_cons in Hnd. destruct Hnd as [Hx Hnd].
  cbn [find] in Hfind. case_bool_decide as Hxid.
  - injection Hfind as <-. apply elem_of_cons in Hin as [->|Hin]; [done|].
    exfalso. apply Hx. apply list_elem_of_fmap. exists b. split; congruence.
  - apply elem_of_cons in Hin as [->|Hin]; [done|]. by apply IH.
Qed.

Lemma active_loans_of_mono db db' book_id :
  (∀ k l', loans db' !! k = Some l' → Loan.returned_at l' = None →
           loans db !! k = Some l') →
  active_loans_of db' book_id ⊆ active_loans_of db book_id.
Proof.
  intros Hrows. apply map_subseteq_spec. intros k l'.
  unfold active_loans_of. rewrite !map_lookup_filter_Some. cbn.
  intros (Hk & Hbook & Hact). split; [|done]. by apply Hrows.
Qed.

Lemma active_loans_of_create_other env book_id uid due db other :
  other ≠ book_id →
  active_loans_of (create_loan env book_id uid due db) other
  = active_loans_of db other.
Proof.
  intros Hne. unfold active_loans_of, create_loan. cbn [loans set_loans].
  apply map_filter_insert_not'; cbn.
  - intros [? _]. congruence.
  - intros y Hy. pose proof (fresh_loan_key db). congruence.
Qed.

Lemma step_within_capacity c db :
  unique_book_ids db → within_capacity db → within_capacity (step c db).
Proof.
  intros Hnd Hcap b Hb.
  destruct (step_frame c db) as (Hbooks & _ & _). rewrite Hbooks in Hb.
  destruct (step_effect c db)
    as [->|[(book_id & book & Hop & _ & _ & Hbook & Hfree & Hstep)|Hrest]].
  - by apply Hcap.
  - rewrite Hstep. destruct (decide (Book.id b = book_id)) as [Hid|Hid].
    + assert (b = book) as -> by by eapply get_book_unique.
      rewrite Hid, active_loans_of_create. lia.
    + rewrite active_loans_of_create_other by done. by apply Hcap.
  - etrans; [|by apply Hcap]. apply inj_le, map_subseteq_size.
    apply active_loans_of_mono. intros k l' Hk Hact.
    destruct (step_row c db k l' Hk) as [(l & Hl & [->|[_ ->]])|(_ & book_id & Hop & _)].
    + done.
    + done.
    + exfalso.
      destruct Hrest as [(? & ? & [[Hop' _]|[Hop' _]] & _)|[(? & Hop' & _)|(Hop' & _)]];
        congruence.
Qed.

Module Ledger.

(** X1: as long as the book table has distinct ids, no history of calls
    can lend more copies of a book than it has: if every book starts
    with at most [copies_total] active loans, so it is after the
    calls. *)
Theorem capacity_kept calls db :
  unique_book_ids db →
  within_capacity db →
  within_capacity (run calls db) ∧ unique_book_ids (run calls db).
Proof.
  revert db. unfold run.
  induction calls as [|c calls IH]; intros db Hnd Hcap; [done|].
  cbn [foldl]. apply IH.
  - unfold unique_book_ids. by rewrite (proj1 (step_frame c db)).
  - by apply step_within_capacity.
Qed.

Lemma capacity_kept_witness :
  within_capacity
    (run [mkCall Sample.env0 (Sample.post Sample.alice) (Borrow 2);
          mkCall Sample.env0 (Sample.post Sample.bob) (Borrow 1);
          mkCall Sample.env1 (Sample.post Sample.alice) (Borrow 1);
          mkCall Sample.env1 (Sample.post Sample.bob) (Borrow 1)]
       Sample.db0).
Proof.
  refine (proj1 (capacity_kept _ Sample.db0 _ _)).
  - apply (bool_decide_unpack _). vm_compute. exact I.
  - intros b Hb. cbn in Hb. rewrite !elem_of_cons in Hb.
    destruct Hb as [->|[->|[->|Hb]]]; [vm_compute; discriminate..|].
    by apply elem_of_nil in Hb.
Defined.

(** X2: a loan row is never deleted, and of its fields only
    [returned_at] is ever written, and only while it is null: after any
    history of calls the row is there with the same book, borrower,
    [borrowed_at] and [due_date], and with the same [returned_at] unless
    the loan was active. *)
Theorem loan_rows_kept calls db loan_id loan :
  loans db !! loan_id = Some loan →
  ∃ loan', loans (run calls db) !! loan_id = Some loan'
           ∧ same_loan loan loan'
           ∧ (Loan.returned_at loan' = Loan.returned_at loan
              ∨ Loan.returned_at loan = None).
Proof.
  revert db loan. unfold run.
  induction calls as [|c calls IH]; intros db loan Hloan.
  - exists loan. by split_and!; [|split_and!|left].
  - cbn [foldl].
    destruct (step_keeps_row c db loan_id loan Hloan) as (l1 & Hl1 & Hcase).
    destruct (IH _ _ Hl1) as (l2 & Hl2 & Hsame & Hret).
    exists l2. split; [done|].
    destruct Hcase as [->|[Hact ->]]; [done|].
    split; [|by right]. destruct Hsame as (? & ? & ? & ?). by split_and!.
Qed.

Lemma loan_rows_kept_witness :
  ∃ loan', loans (run [mkCall Sample.env1 (Sample.post Sample.staff)
                         (BulkMarkReturned {[1; 2]})] Sample.db0) !! 1
           = Some loan'
           ∧ same_loan Sample.loan1 loan'.
Proof.
  destruct (loan_rows_kept
    [mkCall Sample.env1 (Sample.post Sample.staff) (BulkMarkReturned {[1; 2]})]
    Sample.db0 1 Sample.loan1) as (loan' & Hl & Hsame & _); [reflexivity|].
  by exists loan'.
Defined.

(** X3: no call touches the book table or the categories, and the search
    log only grows at its end: after any history of calls the old log is
    a prefix of the new one. *)
Theorem catalog_fixed_log_appended calls db :
  books (run calls db) = books db
  ∧ categories (run calls db) = categories db
  ∧ searches db `prefix_of` searches (run calls db).
Proof.
  revert db. unfold run.
  induction calls as [|c calls IH]; intros db; [done|].
  cbn [foldl]. destruct (IH (step c db)) as (-> & -> & Hlog).
  destruct (step_frame c db) as (-> & -> & Hstep).
  split_and!; [done..|]. by etrans.
Qed.

(** X4: a caller who is not logged in writes nothing: a history of view
    calls by anonymous users leaves the whole database as it was. *)
Theorem anonymous_calls_write_nothing calls db :
  Forall (λ c, is_view_call c
               ∧ is_authenticated (user (call_request c)) = false) calls →
  run calls db = db.
Proof.
  unfold run. induction 1 as [|c calls [Hview Hanon] _ IH]; [done|].
  cbn [foldl]. enough (step c db = db) as -> by done.
  unfold is_view_call in Hview.
  destruct (step_effect c db)
    as [->|[(? & ? & _ & Hauth & _)
       |[(? & ? & [(_ & Hauth & _)|(_ & Hauth%staff_is_authenticated)] & _)
       |[(? & Hop & _)|(_ & Hauth & _)]]]];
    [done|congruence..| |congruence].
  by rewrite Hop in Hview.
Qed.

Lemma anonymous_calls_write_nothing_witness :
  run [mkCall Sample.env0 (Sample.post (mkUser 0 false false)) (Borrow 1);
       mkCall Sample.env0 (Sample.post (mkUser 1 false true)) (AdminMarkReturned 1);
       mkCall Sample.env0
         (Sample.get (mkUser 0 false false) [("q", "dune")]) ListBooks]
      Sample.db0
  = Sample.db0.
Proof.
  apply anonymous_calls_write_nothing.
  repeat (apply Forall_cons; split; [split; [exact I | reflexivity]|]).
  apply Forall_nil_2.
Defined.

(** X5: only a POST changes the ledger: view calls with any other
    method, whoever makes them, leave every loan as it was. *)
Theorem only_post_changes_loans calls db :
  Forall (λ c, is_view_call c ∧ method (call_request c) ≠ "POST") calls →
  loans (run calls db) = loans db.
Proof.
  unfold run. intros Hcalls. revert db.
  induction Hcalls as [|c calls [Hview Hget] _ IH]; intros db; [done|].
  cbn [foldl]. rewrite IH. unfold is_view_call in Hview.
  destruct (step_effect c db)
    as [->|[(? & ? & _ & _ & Hpost & _)
       |[(? & ? & _ & Hpost & _)|[(? & Hop & _)|(_ & _ & ->)]]]];
    [done|done|done| |done].
  by rewrite Hop in Hview.
Qed.

Lemma only_post_changes_loans_witness :
  loans (run [mkCall Sample.env0 (Sample.get Sample.alice []) (Return 1);
              mkCall Sample.env0 (Sample.get Sample.staff []) (AdminMarkReturned 1);
              mkCall Sample.env0 (Sample.get Sample.bob []) (Borrow 1)]
             Sample.db0)
  = loans Sample.db0.
Proof.
  apply only_post_changes_loans.
  repeat (apply Forall_cons; split; [split; [exact I | discriminate]|]).
  apply Forall_nil_2.
Defined.

(** X6: a user who is not staff cannot touch the loans of anyone else:
    through any history of view calls made by that user, the loans whose
    borrower is another user are exactly the ones from before. *)
Theorem others_loans_untouched u calls db :
  _is_staff u = false →
  Forall (λ c, is_view_call c ∧ user (call_request c) = u) calls →
  filter (λ kl, Loan.user kl.2 ≠ user_id u) (loans (run calls db))
  = filter (λ kl, Loan.user kl.2 ≠ user_id u) (loans db).
Proof.
  unfold run. intros Hstaff Hcalls. revert db.
  induction Hcalls as [|c calls [Hview Hu] _ IH]; intros db; [done|].
  cbn [foldl]. rewrite IH. unfold is_view_call in Hview.
  destruct (step_effect c db)
    as [->|[(book_id & book & _ & _ & _ & _ & _ & ->)
       |[(loan_id & loan & [(_ & _ & Howner)|(_ & Hs)] & _ & Hloan & _ & ->)
       |[(? & Hop & _)|(_ & _ & ->)]]]]; cbn [loans set_loans create_loan
         save_returned add_search].
  - done.
  - apply map_filter_insert_not'; cbn.
    + rewrite Hu. intros Hne. by apply Hne.
    + intros y Hy. pose proof (fresh_loan_key db). congruence.
  - rewrite Hu in Howner. apply map_filter_insert_not'; cbn.
    + intros Hne. by apply Hne.
    + intros y Hy Hne. apply Hne. congruence.
  - rewrite Hu in Hs. congruence.
  - by rewrite Hop in Hview.
  - done.
Qed.

Lemma others_loans_untouched_witness :
  filter (λ kl, Loan.user kl.2 ≠ user_id Sample.bob)
    (loans (run [mkCall Sample.env0 (Sample.post Sample.bob) (Return 1);
                 mkCall Sample.env0 (Sample.post Sample.bob) (AdminMarkReturned 1);
                 mkCall Sample.env0 (Sample.post Sample.bob) (Borrow 1)]
                Sample.db0))
  = filter (λ kl, Loan.user kl.2 ≠ user_id Sample.bob) (loans Sample.db0).
Proof.
  apply others_loans_untouched; [reflexivity|].
  repeat (apply Forall_cons; split; [split; [exact I | reflexivity]|]).
  apply Forall_nil_2.
Defined.

End Ledger.

(** ** Facts about the loan pages *)

Lemma borrow_book_success env request db book_id book :
  is_authenticated (user request) = true →
  method request = "POST" →
  get_book db book_id = Some book →
  Z.of_nat (size (active_loans_of db book_id)) < Book.copies_total book →
  (borrow_book env book_id request db).1
  = create_loan env book_id (user_id (user request)) (localdate env + 14) db.
Proof.
  intros Hauth Hpost Hbook Hfree.
  unfold borrow_book, login_required, borrow_book_view.
  rewrite Hauth, Hbook, (method_post _ Hpost).
  by rewrite (proj2 (Z.leb_gt _ _) Hfree).
Qed.

Lemma return_book_cases env request db loan_id :
  is_authenticated (user request) = true →
  method request = "POST" →
  return_book env loan_id request db
  = match Pages.loans_of db (user request) !! loan_id with
    | None => (db, Http404)
    | Some loan =>
        match Loan.returned_at loan with
        | Some _ => (db, Redirect "catalog:my_loans" [Msg info AlreadyReturned])
        | None => (save_returned env loan_id loan db,
                   Redirect "catalog:my_loans"
                     [Msg success (Returned (loan_book_title db loan))])
        end
    end.
Proof.
  intros Hauth Hpost.
  unfold return_book, login_required, return_book_view, get_own_loan,
    Pages.loans_of.
  rewrite Hauth, map_lookup_filter.
  destruct (loans db !! loan_id) as [loan|]; cbn; [|done].
  case_bool_decide as Howner.
  - rewrite option_guard_True by done. cbn. by rewrite (method_post _ Hpost).
  - by rewrite option_guard_False.
Qed.

Lemma admin_mark_returned_cases env request db loan_id :
  _is_staff (user request) = true →
  method request = "POST" →
  admin_mark_returned env loan_id request db
  = match loans db !! loan_id with
    | None => (db, Http404)
    | Some loan =>
        match Loan.returned_at loan with
        | None => (save_returned env loan_id loan db,
                   Redirect "catalog:admin_overdue_loans"
                     [Msg success (MarkedReturned (loan_book_title db loan))])
        | Some _ => (db, Redirect "catalog:admin_overdue_loans" [])
        end
    end.
Proof.
  intros Hstaff Hpost.
  unfold admin_mark_returned, user_passes_test, admin_mark_returned_view.
  rewrite Hstaff. destruct (loans db !! loan_id); [|done].
  by rewrite (method_post _ Hpost).
Qed.

Lemma overdue_save_returned env today loan_id loan db :
  loans db !! loan_id = Some loan →
  Pages.overdue today (save_returned env loan_id loan db)
  = delete loan_id (Pages.overdue today db).
Proof.
  intros Hloan. unfold Pages.overdue, save_returned. cbn [loans set_loans].
  rewrite map_filter_insert_False by (cbn; by intros []).
  apply map_filter_delete.
Qed.

Module LoanPages.

(** X7: a logged-in user can return exactly the loans that the "my
    loans" page shows: on a POST, Return answers not-found, writing
    nothing, for every id that is not on the page and never for an id
    that is on it. *)
Theorem return_exactly_own_loans env request db :
  is_authenticated (user request) = true →
  method request = "POST" →
  ∃ shown,
    Pages.my_loans request db = MyLoansPage shown
    ∧ (∀ k l, shown !! k = Some l
              ↔ loans db !! k = Some l ∧ Loan.user l = user_id (user request))
    ∧ ∀ loan_id,
        (shown !! loan_id = None →
           return_book env loan_id request db = (db, Http404))
        ∧ (is_Some (shown !! loan_id) →
             (return_book env loan_id request db).2 ≠ Http404).
Proof.
  intros Hauth Hpost. exists (Pages.loans_of db (user request)). split_and!.
  - unfold Pages.my_loans, page_guard. by rewrite Hauth.
  - intros k l. unfold Pages.loans_of. by rewrite map_lookup_filter_Some.
  - intros loan_id. rewrite return_book_cases by done. split.
    + by intros ->.
    + intros [l ->]. by destruct (Loan.returned_at l).
Qed.

Lemma return_exactly_own_loans_witness :
  ∃ shown,
    Pages.my_loans (Sample.post Sample.bob) Sample.db0 = MyLoansPage shown
    ∧ shown !! 1 = None
    ∧ return_book Sample.env0 1 (Sample.post Sample.bob) Sample.db0
      = (Sample.db0, Http404).
Proof.
  destruct (return_exactly_own_loans Sample.env0 (Sample.post Sample.bob)
              Sample.db0) as (shown & Hpage & Hrows & Hret);
    [reflexivity | reflexivity |].
  exists shown. split; [exact Hpage|].
  assert (shown !! 1 = None) as Hnone.
  { destruct (shown !! 1) as [l|] eqn:Hl; [|reflexivity].
    apply Hrows in Hl as [Hl Hu]. vm_compute in Hl. injection Hl as <-.
    vm_compute in Hu. discriminate. }
  split; [exact Hnone|]. by apply Hret.
Defined.

(** X8: a loan that Borrow has just created is on the borrower's "my
    loans" page and on the staff page of the book's borrowers, each of
    which shows, besides it, what it showed before. *)
Theorem borrowed_loan_is_listed env request staff_request db book_id book :
  is_authenticated (user request) = true →
  method request = "POST" →
  get_book db book_id = Some book →
  Z.of_nat (size (active_loans_of db book_id)) < Book.copies_total book →
  _is_staff (user staff_request) = true →
  let db' := (borrow_book env book_id request db).1 in
  ∃ loan_id created,
    loans db !! loan_id = None
    ∧ Loan.user created = user_id (user request)
    ∧ Loan.book created = book_id
    ∧ Pages.my_loans request db'
      = MyLoansPage (<[loan_id := created]> (Pages.loans_of db (user request)))
    ∧ Pages.admin_book_borrowers book_id staff_request db'
      = BorrowersPage book (<[loan_id := created]> (active_loans_of db book_id)).
Proof.
  intros Hauth Hpost Hbook Hfree Hstaff db'. subst db'.
  rewrite (borrow_book_success _ _ _ _ book) by done.
  exists (fresh (dom (loans db))),
    (Loan.mk book_id (user_id (user request)) (now env) (localdate env + 14) None).
  split_and!.
  - apply fresh_loan_key.
  - reflexivity.
  - reflexivity.
  - unfold Pages.my_loans, page_guard. rewrite Hauth. f_equal.
    unfold Pages.loans_of, create_loan. cbn [loans set_loans].
    by rewrite map_filter_insert_True.
  - unfold Pages.admin_book_borrowers, page_guard. rewrite Hstaff.
    change (get_book (create_loan _ _ _ _ db) book_id) with (get_book db book_id).
    rewrite Hbook. f_equal.
    unfold active_loans_of, create_loan. cbn [loans set_loans].
    by rewrite map_filter_insert_True.
Qed.

Lemma borrowed_loan_is_listed_witness :
  ∃ loan_id created,
    loans Sample.db0 !! loan_id = None
    ∧ Pages.my_loans (Sample.post Sample.bob)
        (borrow_book Sample.env0 1 (Sample.post Sample.bob) Sample.db0).1
      = MyLoansPage (<[loan_id := created]>
                       (Pages.loans_of Sample.db0 Sample.bob)).
Proof.
  destruct (borrowed_loan_is_listed Sample.env0 (Sample.post Sample.bob)
              (Sample.post Sample.staff) Sample.db0 1 Sample.farm)
    as (loan_id & created & Hnew & _ & _ & Hmine & _);
    [reflexivity | reflexivity | reflexivity | vm_compute; reflexivity
    | reflexivity |].
  by exists loan_id, created.
Defined.

(** X9: a loan borrowed today appears on the staff's overdue page when
    the day is past today plus fourteen and not before: on any later
    day the page of the database after the Borrow is the page from
    before, with the new loan added exactly when that day is after the
    due date. *)
Theorem borrowed_loan_overdue_after_due_date
    env env' request staff_request db book_id book :
  is_authenticated (user request) = true →
  method request = "POST" →
  get_book db book_id = Some book →
  Z.of_nat (size (active_loans_of db book_id)) < Book.copies_total book →
  _is_staff (user staff_request) = true →
  let db' := (borrow_book env book_id request db).1 in
  ∃ loan_id created,
    loans db !! loan_id = None
    ∧ loans db' !! loan_id = Some created
    ∧ Pages.admin_overdue_loans env' staff_request db'
      = OverduePage
          (if decide (localdate env + 14 < localdate env')
           then <[loan_id := created]> (Pages.overdue (localdate env') db)
           else Pages.overdue (localdate env') db).
Proof.
  intros Hauth Hpost Hbook Hfree Hstaff db'. subst db'.
  rewrite (borrow_book_success _ _ _ _ book) by done.
  exists (fresh (dom (loans db))),
    (Loan.mk book_id (user_id (user request)) (now env) (localdate env + 14) None).
  split_and!.
  - apply fresh_loan_key.
  - cbn. apply lookup_insert_eq.
  - unfold Pages.admin_overdue_loans, page_guard. rewrite Hstaff. f_equal.
    unfold Pages.overdue, create_loan. cbn [loans set_loans].
    case_decide as Hdue.
    + by rewrite map_filter_insert_True.
    + apply map_filter_insert_not'; cbn.
      * by intros [_ ?].
      * intros y Hy. pose proof (fresh_loan_key db). congruence.
Qed.

Lemma borrowed_loan_overdue_after_due_date_witness :
  Pages.admin_overdue_loans Sample.env1 (Sample.post Sample.staff)
    (borrow_book Sample.env0 1 (Sample.post Sample.bob) Sample.db0).1
  = OverduePage (Pages.overdue 101 Sample.db0).
Proof.
  destruct (borrowed_loan_overdue_after_due_date Sample.env0 Sample.env1
              (Sample.post Sample.bob) (Sample.post Sample.staff)
              Sample.db0 1 Sample.farm)
    as (loan_id & created & _ & _ & Hpage);
    [reflexivity | reflexivity | reflexivity | vm_compute; reflexivity
    | reflexivity |].
  exact Hpage.
Defined.

(** X10: the staff view writes what the borrower's own Return would
    write: on an existing loan, a POST by staff to the staff view and a
    POST by the borrower to Return leave the same database; the loan is
    then off the overdue page for good, and the same staff member,
    going through Return on a loan that is not theirs, gets not-found
    and writes nothing. *)
Theorem staff_return_like_own_return
    env staff_request owner_request db loan_id loan today :
  _is_staff (user staff_request) = true →
  method staff_request = "POST" →
  is_authenticated (user owner_request) = true →
  method owner_request = "POST" →
  loans db !! loan_id = Some loan →
  Loan.user loan = user_id (user owner_request) →
  (admin_mark_returned env loan_id staff_request db).1
  = (return_book env loan_id owner_request db).1
  ∧ Pages.overdue today (admin_mark_returned env loan_id staff_request db).1
    = delete loan_id (Pages.overdue today db)
  ∧ (Loan.user loan ≠ user_id (user staff_request) →
     return_book env loan_id staff_request db = (db, Http404)).
Proof.
  intros Hstaff Hspost Hauth Hopost Hloan Howner.
  rewrite admin_mark_returned_cases, Hloan by done.
  rewrite (return_book_cases env owner_request) by done.
  assert (Pages.loans_of db (user owner_request) !! loan_id = Some loan) as ->.
  { unfold Pages.loans_of. by apply map_lookup_filter_Some. }
  split_and!.
  - by destruct (Loan.returned_at loan).
  - destruct (Loan.returned_at loan) eqn:Hret; cbn [fst].
    + symmetry. apply delete_id. unfold Pages.overdue.
      apply map_lookup_filter_None. right. intros l Hl. cbn. intros [Hact _].
      congruence.
    + by apply overdue_save_returned.
  - intros Hother.
    rewrite return_book_cases by eauto using staff_is_authenticated.
    assert (Pages.loans_of db (user staff_request) !! loan_id = None) as ->; [|done].
    unfold Pages.loans_of. apply map_lookup_filter_None. right.
    intros l Hl. cbn. congruence.
Qed.

Lemma staff_return_like_own_return_witness :
  (admin_mark_returned Sample.env0 1 (Sample.post Sample.staff) Sample.db0).1
  = (return_book Sample.env0 1 (Sample.post Sample.alice) Sample.db0).1.
Proof.
  refine (proj1 (staff_return_like_own_return Sample.env0
    (Sample.post Sample.staff) (Sample.post Sample.alice) Sample.db0 1
    Sample.loan1 0 _ _ _ _ _ _)); reflexivity.
Defined.

End LoanPages.

(** ** Facts about the selection of the bulk action *)


Module BulkAction.



(** X13: after the admin action the overdue page shows the overdue
    loans that were not selected, and nothing else; selecting everything
    on the overdue page empties it. *)
Theorem bulk_action_clears_overdue env queryset db today :
  let db' := (LoanAdmin.marcar_como_devolvido env queryset db).1 in
  Pages.overdue today db'
  = filter (λ kl, kl.1 ∉ queryset) (Pages.overdue today db)
  ∧ (dom (Pages.overdue today db) ⊆ queryset → Pages.overdue today db' = ∅).
Proof.
  cbn zeta.
  assert (Pages.overdue today (LoanAdmin.marcar_como_devolvido env queryset db).1
          = filter (λ kl, kl.1 ∉ queryset) (Pages.overdue today db)) as Heq.
  { apply map_eq. intros k. apply option_eq. intros l'.
    unfold Pages.overdue.
    rewrite !map_lookup_filter_Some, marcar_como_devolvido_lookup.
    destruct (loans db !! k) as [l|]; cbn;
      [|split; [by intros [? _] | by intros [[? _] _]]].
    case_decide as Hsel.
    - split.
      + intros ([= <-] & Hact & _). done.
      + intros (([= <-] & Hact & _) & Hout). by destruct Hsel.
    - split.
      + intros ([= <-] & Hact & Hdue). split_and!; try done.
        intros Hin. apply Hsel. by split.
      + intros (([= <-] & Hact & Hdue) & _). done. }
  split; [exact Heq|]. intros Hall. rewrite Heq.
  apply map_empty. intros k. apply map_lookup_filter_None. right.
  intros l Hl. cbn. intros Hout. apply Hout, Hall, elem_of_dom. by exists l.
Qed.

Lemma bulk_action_clears_overdue_witness :
  Pages.overdue 101
    (LoanAdmin.marcar_como_devolvido Sample.env1
       (dom (Pages.overdue 101 Sample.db0)) Sample.db0).1
  = ∅.
Proof.
  refine (proj2 (bulk_action_clears_overdue Sample.env1
    (dom (Pages.overdue 101 Sample.db0)) Sample.db0 101) _).
  reflexivity.
Defined.

End BulkAction.


(** ** Facts about the remaining filters of the listing *)












Module Filters.
Import BookList SearchRules.






End Filters.

(** ** Facts about the responses of the listing *)




Lemma export_row_available db a :
  BookListView.export_row db a !! 3%nat
  = Some (CNum (Z.max (BookList.disponiveis a) 0)).
Proof. reflexivity. Qed.

Lemma order_by_key_sorted {K} (R : relation K) `{!RelDecision R}
    `{!Transitive R, !Total R} (key : Annotated → K) l :
  StronglySorted (on_key R key) (order_by_key R key l).
Proof. apply (StronglySorted_merge_sort _). Qed.

Module Responses.
Import BookList BookListView SearchRules.

(** X17: the queryset is always sorted.  With [ordenar=author] it is in
    ascending order of the lower-cased author, equal authors by title;
    with any sort key other than [author] and [disponibilidade], known
    or not, it is in ascending order of the lower-cased title.  In every
    case it is a rearrangement of the matching rows. *)
Theorem order_by_author_or_title request db :
  BookList.qs request db ≡ₚ filtered request db
  ∧ (ordenar request = "author" →
     StronglySorted
       (λ a b, lex_le String.le String.le
                 (Text.lower (author a), title a) (Text.lower (author b), title b))
       (BookList.qs request db))
  ∧ (ordenar request ≠ "author" → ordenar request ≠ "disponibilidade" →
     StronglySorted
       (λ a b, String.le (Text.lower (title a)) (Text.lower (title b)))
       (BookList.qs request db)).
Proof.
  split_and!.
  - apply order_Permutation.
  - intros Hkey. unfold BookList.qs, order. rewrite Hkey. cbn.
    apply (order_by_key_sorted (lex_le String.le String.le) lower_author_title).
  - intros Hna Hnd. unfold BookList.qs, order.
    rewrite (proj2 (String.eqb_neq _ _) Hna), (proj2 (String.eqb_neq _ _) Hnd).
    apply (order_by_key_sorted String.le lower_title).
Qed.





End Responses.

(** ** Facts about the page that is served *)


Module PageServed.
Import BookList BookListView.



End PageServed.

(** ** Facts about the advanced search and the search history *)

Lemma languages_elem_of db lang :
  lang ∈ Pages.languages db
  ↔ lang ≠ "" ∧ ∃ b, b ∈ books db ∧ Book.language b = lang.
Proof.
  unfold Pages.languages.
  rewrite merge_sort_Permutation, elem_of_remove_dups, elem_of_List_filter,
    list_elem_of_fmap, negb_true_iff, String.eqb_neq.
  split.
  - intros [(b & -> & Hb) Hne]. split; [done|]. by exists b.
  - intros [Hne (b & Hb & <-)]. split; [|done]. by exists b.
Qed.

Lemma history_qs_own ordering request db :
  is_authenticated (user request) = true →
  Pages.history_qs ordering request db
  = take 100
      (ordering
         (List.filter
            (λ s, bool_decide (SearchQuery.user s = Some (user_id (user request))))
            (searches db))).
Proof. intros Hauth. unfold Pages.history_qs. by rewrite Hauth. Qed.

Module SearchPages.

(** X21: the languages offered by the advanced search are exactly the
    non-empty languages of the books of the catalog, each listed once,
    in ascending order. *)
Theorem advanced_search_languages request db :
  is_authenticated (user request) = true →
  ∃ languages,
    Pages.advanced_search request db = AdvancedSearchPage (categories db) languages
    ∧ (∀ lang, lang ∈ languages
               ↔ lang ≠ "" ∧ ∃ b, b ∈ books db ∧ Book.language b = lang)
    ∧ NoDup languages
    ∧ StronglySorted String.le languages.
Proof.
  intros Hauth. exists (Pages.languages db). split_and!.
  - unfold Pages.advanced_search, page_guard. by rewrite Hauth.
  - apply languages_elem_of.
  - unfold Pages.languages. rewrite merge_sort_Permutation.
    apply NoDup_remove_dups.
  - apply (StronglySorted_merge_sort _).
Qed.

Lemma advanced_search_languages_witness :
  ∃ languages,
    Pages.advanced_search (Sample.get Sample.alice []) Sample.db0
    = AdvancedSearchPage (categories Sample.db0) languages
    ∧ NoDup languages.
Proof.
  destruct (advanced_search_languages (Sample.get Sample.alice []) Sample.db0)
    as (languages & Hpage & _ & Hnd & _); [reflexivity|].
  by exists languages.
Defined.

Section history.
Variable ordering : list SearchQuery.t → list SearchQuery.t.
Hypothesis ordering_Permutation : ∀ l, ordering l ≡ₚ l.

(** X22: whatever the default ordering of the log, the search history
    shows a logged-in caller at most 100 searches, all of them logged
    searches of that caller; the CSV and the workbook download carry the
    same searches as the page, one line each under the header, and the
    workbook is answered with a server error when its writer is not
    installed. *)
Theorem history_own_searches_only env request db :
  is_authenticated (user request) = true →
  ∃ shown,
    (length shown ≤ 100)%nat
    ∧ (∀ s, s ∈ shown →
            s ∈ searches db
            ∧ SearchQuery.user s = Some (user_id (user request)))
    ∧ Pages.search_history ordering env request db
      = match GET request !! "export" with
        | Some "csv" =>
            SearchHistoryCsv "historico_buscas.csv"
              (Pages.history_header :: (Pages.history_row <$> shown))
        | Some "xlsx" =>
            if openpyxl_installed env then
              SearchHistoryXlsx "historico_buscas.xlsx"
                (Pages.history_header :: (Pages.history_row <$> shown))
            else PageServerError500
        | _ => SearchHistoryPage shown
        end.
Proof.
  intros Hauth. exists (Pages.history_qs ordering request db). split_and!.
  - rewrite history_qs_own by done. rewrite length_take. lia.
  - intros s Hs. rewrite history_qs_own in Hs by done.
    apply subseteq_take in Hs. rewrite ordering_Permutation in Hs.
    apply elem_of_List_filter in Hs as [Hin Hu].
    by apply bool_decide_eq_true in Hu.
  - unfold Pages.search_history, page_guard, Pages.search_history_view.
    rewrite Hauth. unfold Pages.history_table.
    destruct (GET request !! "export") as [fmt|] eqn:Hfmt.
    + destruct (decide (fmt = "csv")) as [->|Hcsv].
      { by rewrite bool_decide_true. }
      rewrite bool_decide_false by congruence.
      destruct (decide (fmt = "xlsx")) as [->|Hxlsx].
      { by rewrite bool_decide_true. }
      rewrite bool_decide_false by congruence.
      repeat (case_match; try done); simplify_eq; done.
    + by rewrite !bool_decide_false.
Qed.


End history.

Lemma history_own_searches_only_witness :
  ∃ shown,
    (length shown ≤ 100)%nat
    ∧ Pages.search_history reverse Sample.env0 (Sample.get Sample.alice []) Sample.db0
      = SearchHistoryPage shown.
Proof.
  destruct (history_own_searches_only reverse reverse_Permutation Sample.env0
              (Sample.get Sample.alice []) Sample.db0)
    as (shown & Hlen & _ & Hpage); [reflexivity|].
  exists shown. split; [exact Hlen | exact Hpage].
Defined.


End SearchPages.

(** ** Facts about the shopping cart *)

Module CartRemoval.
Section carrinho_facts.
Context {Preco : Type}.
Variable lower : string → string.
Local Open Scope list_scope.
Local Abbreviation Objeto := (Carrinho.Objeto Preco).
Local Abbreviation same_name := (Carrinho.same_name Preco lower).
Local Abbreviation remove_and_skip := (Carrinho.remove_and_skip Preco lower).
Local Abbreviation remover_loop := (Carrinho.remover_loop Preco lower).

Lemma list_remove_middle (done todo : list Objeto) (x : Objeto) :
  x.1 ∉ done.*1 →
  Carrinho.list_remove Preco x.1 (done ++ x :: todo) = done ++ todo.
Proof.
  induction done as [|d done IH]; intros Hx; cbn.
  - by rewrite decide_True.
  - rewrite fmap_cons, not_elem_of_cons in Hx. destruct Hx as [Hne Hx].
    rewrite decide_False by done. by rewrite IH.
Qed.

Lemma list_remove_length ident (l : list Objeto) :
  (length (Carrinho.list_remove Preco ident l) ≤ length l)%nat.
Proof.
  induction l as [|o l IH]; cbn; [lia|]. case_decide; cbn; lia.
Qed.

(** The loop is over by the time the fuel is: a turn more changes
    nothing. *)
Lemma remover_loop_fuel fuel i nome (produtos : list Objeto) :
  (length produtos ≤ i + fuel)%nat →
  remover_loop (S fuel) i nome produtos = remover_loop fuel i nome produtos.
Proof.
  revert i produtos. induction fuel as [|fuel IH]; intros i produtos Hlen.
  - cbn. by rewrite lookup_ge_None_2 by lia.
  - cbn [Carrinho.remover_loop]. destruct (produtos !! i) as [p|]; [|done].
    destruct (same_name nome p).
    + apply IH. pose proof (list_remove_length p.1 produtos). lia.
    + apply IH. lia.
Qed.

Lemma remover_loop_from fuel nome (done todo : list Objeto) :
  NoDup (done ++ todo).*1 →
  (length todo ≤ fuel)%nat →
  remover_loop fuel (length done) nome (done ++ todo)
  = done ++ remove_and_skip nome todo.
Proof.
  revert done todo. induction fuel as [|fuel IH]; intros done todo Hnd Hlen.
  - destruct todo; [done | cbn in Hlen; lia].
  - cbn [Carrinho.remover_loop]. rewrite lookup_app_r by done.
    rewrite Nat.sub_diag. destruct todo as [|x todo]; [done|]. cbn [lookup list_lookup].
    cbn [Carrinho.remove_and_skip]. cbn in Hlen.
    destruct (same_name nome x) eqn:Hx.
    + rewrite list_remove_middle.
      2:{ rewrite fmap_app, fmap_cons in Hnd.
          apply NoDup_app in Hnd as (_ & Hdisj & _). intros Hin.
          apply (Hdisj _ Hin). by left. }
      assert (NoDup (done ++ todo).*1) as Hnd'.
      { rewrite fmap_app, fmap_cons in Hnd. rewrite fmap_app.
        apply NoDup_app in Hnd as (Hd & Hdisj & Ht). apply NoDup_cons in Ht as [_ Ht].
        apply NoDup_app. split_and!; [done| |done].
        intros z Hz Hz'. apply (Hdisj z Hz). by right. }
      destruct todo as [|y todo].
      * rewrite app_nil_r. destruct fuel; [done|]. cbn [Carrinho.remover_loop].
        by rewrite lookup_ge_None_2 by lia.
      * replace (done ++ y :: todo) with ((done ++ [y]) ++ todo)
          by by rewrite <- app_assoc.
        replace (S (length done)) with (length (done ++ [y]))
          by (rewrite length_app; cbn; lia).
        rewrite IH.
        -- by rewrite <- app_assoc.
        -- by rewrite <- app_assoc.
        -- cbn in Hlen. lia.
    + replace (done ++ x :: todo) with ((done ++ [x]) ++ todo)
        by by rewrite <- app_assoc.
      replace (S (length done)) with (length (done ++ [x]))
        by (rewrite length_app; cbn; lia).
      rewrite IH.
      * by rewrite <- app_assoc.
      * by rewrite <- app_assoc.
      * lia.
Qed.

Lemma remove_and_skip_strong nome (P : list Objeto → list Objeto → Prop) :
  P [] [] →
  (∀ x, same_name nome x = true → P [x] []) →
  (∀ x y l r, same_name nome x = true → P l r → P (x :: y :: l) (y :: r)) →
  (∀ x l r, same_name nome x = false → P l r → P (x :: l) (x :: r)) →
  ∀ l, P l (remove_and_skip nome l).
Proof.
  intros Hnil Hone Hskip Hkeep l.
  assert (∀ n (l : list Objeto), (length l ≤ n)%nat →
            P l (remove_and_skip nome l)) as Hall.
  { clear l. induction n as [|n IH]; intros l Hlen.
    - destruct l; [done | cbn in Hlen; lia].
    - destruct l as [|x l]; [done|]. cbn [Carrinho.remove_and_skip].
      cbn in Hlen. destruct (same_name nome x) eqn:Hx.
      + destruct l as [|y l]; [by apply Hone|].
        apply Hskip; [done|]. apply IH. cbn in Hlen. lia.
      + apply Hkeep; [done|]. apply IH. lia. }
  by apply (Hall (length l)).
Qed.

Lemma remover_produto_eq nome (produtos : list Objeto) :
  NoDup produtos.*1 →
  Carrinho.remover_produto Preco lower nome produtos
  = (remove_and_skip nome produtos,
     "Produto '" +:+ nome +:+ "' removido do carrinho.").
Proof.
  intros Hnd. unfold Carrinho.remover_produto. f_equal.
  by apply (remover_loop_from _ nome []).
Qed.

(** X24: on a cart of distinct objects, removing by name does not remove
    every product of that name: the loop removes a product of the name
    and then passes over the product that follows it, checked or not.
    The cart it leaves is [remove_and_skip] of the cart, and the line
    "removed" is printed whether or not anything was removed. *)
Theorem remover_produto_skips nome (produtos : list Objeto) :
  NoDup produtos.*1 →
  Carrinho.remover_produto Preco lower nome produtos
  = (remove_and_skip nome produtos,
     "Produto '" +:+ nome +:+ "' removido do carrinho.").
Proof. apply remover_produto_eq. Qed.

(** X25: on a cart of distinct objects, removing by name keeps every
    product of another name, in the order they had; and when no two
    neighbours in the cart both have the name, it removes every product
    of the name, so that the cart left is exactly the products of other
    names. *)
Theorem remover_produto_keeps_others nome (produtos : list Objeto) :
  NoDup produtos.*1 →
  let left := (Carrinho.remover_produto Preco lower nome produtos).1 in
  List.filter (λ o, negb (same_name nome o)) left
  = List.filter (λ o, negb (same_name nome o)) produtos
  ∧ left `sublist_of` produtos
  ∧ (Carrinho.no_neighbours Preco lower nome produtos →
     left = List.filter (λ o, negb (same_name nome o)) produtos).
Proof.
  intros Hnd left. subst left. rewrite remover_produto_eq by done.
  cbn [fst]. clear Hnd. split_and!.
  - apply (remove_and_skip_strong nome
      (λ l r, List.filter (λ o, negb (same_name nome o)) r
              = List.filter (λ o, negb (same_name nome o)) l)).
    + done.
    + intros x Hx. cbn. by rewrite Hx.
    + intros x y l r Hx IH. cbn. rewrite Hx. cbn. by rewrite IH.
    + intros x l r Hx IH. cbn. rewrite Hx. cbn. by rewrite IH.
  - apply (remove_and_skip_strong nome (λ l r, r `sublist_of` l)).
    + done.
    + intros x _. apply sublist_nil_l.
    + intros x y l r _ IH. by apply sublist_cons, sublist_skip.
    + intros x l r _ IH. by apply sublist_skip.
  - apply (remove_and_skip_strong nome
      (λ l r, Carrinho.no_neighbours Preco lower nome l →
              r = List.filter (λ o, negb (same_name nome o)) l)).
    + done.
    + intros x Hx _. cbn. by rewrite Hx.
    + intros x y l r Hx IH Hnn. cbn. rewrite Hx. cbn.
      rewrite (Hnn 0%nat x y eq_refl eq_refl Hx). cbn. f_equal. apply IH.
      intros i a b Ha Hb. apply (Hnn (S (S i))); done.
    + intros x l r Hx IH Hnn. cbn. rewrite Hx. cbn. f_equal. apply IH.
      intros i a b Ha Hb. apply (Hnn (S i)); done.
Qed.

(** X26: on a cart of distinct objects, when the first product of the
    name is directly followed by another product of the name, the first
    is removed and the second stays in the cart. *)
Theorem remover_produto_leaves_neighbour nome (done rest : list Objeto) x y :
  NoDup (done ++ x :: y :: rest).*1 →
  Forall (λ o, same_name nome o = false) done →
  same_name nome x = true →
  same_name nome y = true →
  let left := (Carrinho.remover_produto Preco lower nome (done ++ x :: y :: rest)).1 in
  left = done ++ y :: remove_and_skip nome rest
  ∧ y ∈ left ∧ x ∉ left.
Proof.
  intros Hnd Hdone Hx Hy left. subst left.
  rewrite remover_produto_eq by done. cbn [fst].
  assert (remove_and_skip nome (done ++ x :: y :: rest)
          = done ++ y :: remove_and_skip nome rest) as ->.
  { clear Hnd. induction Hdone as [|d done Hd _ IH]; cbn.
    - by rewrite Hx.
    - by rewrite Hd, IH. }
  split; [done|]. split.
  - apply elem_of_app. right. by left.
  - assert (x.1 ∉ (done ++ y :: rest).*1) as Hfresh.
    { rewrite fmap_app, !fmap_cons in Hnd. rewrite fmap_app, fmap_cons.
      apply NoDup_app in Hnd as (_ & Hdisj & Hrest).
      apply NoDup_cons in Hrest as [Hxrest _].
      intros [Hin|Hin]%elem_of_app.
      - apply (Hdisj _ Hin). by left.
      - by apply Hxrest. }
    intros Hin. apply Hfresh. apply list_elem_of_fmap. exists x. split; [done|].
    apply elem_of_app in Hin as [Hin|Hin]; apply elem_of_app; [by left|right].
    apply elem_of_cons in Hin as [->|Hin]; [by left|right].
    eapply elem_of_sublist; [exact Hin|].
    apply (remove_and_skip_strong nome (λ l r, r `sublist_of` l)).
    + done.
    + intros ? _. apply sublist_nil_l.
    + intros ? ? l r _ IH. by apply sublist_cons, sublist_skip.
    + intros ? l r _ IH. by apply sublist_skip.
Qed.

End carrinho_facts.

Import SampleCart.

Lemma remover_produto_skips_witness :
  Carrinho.remover_produto Z Text.lower "ARROZ" [arroz; arroz_integral; feijao]
  = ([arroz_integral; feijao], "Produto 'ARROZ' removido do carrinho.").
Proof.
  refine (remover_produto_skips Text.lower "ARROZ" [arroz; arroz_integral; feijao] _).
  apply (bool_decide_unpack _). vm_compute. exact I.
Defined.

Lemma remover_produto_keeps_others_witness :
  (Carrinho.remover_produto Z Text.lower "arroz" [arroz; feijao; arroz_integral]).1
  = [feijao].
Proof.
  refine (proj2 (proj2 (remover_produto_keeps_others Text.lower "arroz"
    [arroz; feijao; arroz_integral] _)) _).
  - apply (bool_decide_unpack _). vm_compute. exact I.
  - intros [|[|[|i]]] x y Hx Hy; cbn in Hx, Hy; simplify_eq; try done.
Defined.

Lemma remover_produto_leaves_neighbour_witness :
  arroz_integral
  ∈ (Carrinho.remover_produto Z Text.lower "arroz"
       [feijao; arroz; arroz_integral]).1.
Proof.
  refine (proj1 (proj2 (remover_produto_leaves_neighbour Text.lower "arroz"
    [feijao] [] arroz arroz_integral _ _ _ _))).
  - apply (bool_decide_unpack _). vm_compute. exact I.
  - repeat constructor.
  - reflexivity.
  - reflexivity.
Defined.

End CartRemoval.
